(** * emmet-ls: the completion adapter of [src/server.ts]

    A shallow embedding of the language server's handlers.  The server is
    one TypeScript module: a handful of module-level variables, the
    handlers registered on the connection, and the helper functions that
    build a completion item out of an Emmet abbreviation.  The Emmet
    engine, the document manager and the client connection are external
    packages; they appear here as an interface ([Emmet.Engine]) and as
    fields of the server state. *)

From Stdlib Require Import ZArith List Ascii String Lia.
From stdpp Require Import base strings gmap list pretty.
Import ListNotations.

Local Open Scope Z_scope.
Local Open Scope string_scope.

(** ** JavaScript values and built-ins used by the server *)

Module JS.

(** Completion of a JavaScript call: a returned value, or a thrown
    error.  The server only ever interpolates a caught error into a log
    line, so an error is carried as the text [`${error}`] yields. *)
Inductive Outcome (A : Type) : Type :=
| Returned (a : A)
| Thrown (error : string).
Arguments Returned {A} a.
Arguments Thrown {A} error.

(** [xs.indexOf(x)]: position of the first element strictly equal to
    [x], or [-1]. *)
Fixpoint indexOf_from (xs : list string) (x : string) (i : Z) : Z :=
  match xs with
  | [] => -1
  | y :: ys => if String.eqb y x then i else indexOf_from ys x (i + 1)
  end.

Definition indexOf (xs : list string) (x : string) : Z :=
  indexOf_from xs x 0.

Definition LF : ascii := ascii_of_nat 10.
Definition CR : ascii := ascii_of_nat 13.

(** Prepends a character to the first piece of a split. *)
Definition push_front (c : ascii) (pieces : list string) : list string :=
  match pieces with
  | [] => [String c ""]
  | p :: ps => String c p :: ps
  end.

(** [s.split(/\r?\n/g)]: the pieces of [s] between line terminators,
    where a terminator is a line feed, together with the carriage return
    directly before it when there is one.  The empty string splits into
    one empty piece. *)
Fixpoint split_lines (s : string) : list string :=
  match s with
  | "" => [""]
  | String c rest =>
      if Ascii.eqb c LF then "" :: split_lines rest
      else match rest with
           | String c' _ =>
               if Ascii.eqb c CR && Ascii.eqb c' LF
               then split_lines rest
               else push_front c (split_lines rest)
           | "" => push_front c (split_lines rest)
           end
  end.

(** [xs[i]]: the element at index [i], [undefined] out of range. *)
Definition index {A : Type} (xs : list A) (i : Z) : option A :=
  if (i <? 0)%Z then None else xs !! Z.to_nat i.

(** [String(v)] for a value that is a string or [undefined]. *)
Definition String_ (v : option string) : string :=
  match v with
  | Some s => s
  | None => "undefined"
  end.

(** [Number.MAX_SAFE_INTEGER]: up to this magnitude every integer is a
    number of its own and is printed with all its digits. *)
Definition MAX_SAFE_INTEGER : Z := 2 ^ 53 - 1.

Definition is_safe_integer (n : Z) : Prop :=
  - MAX_SAFE_INTEGER <= n <= MAX_SAFE_INTEGER.

(** [`${n}`] for a safe integer [n]: its decimal digits, with a leading
    minus sign when negative.  Beyond the safe integers a number is
    printed rounded, and from 1e21 in exponent form; the function is not
    meant for those, and tab-stop indices are far from them. *)
Definition number_to_string (n : Z) : string := pretty n.

(** Truthiness of a string: every string but the empty one. *)
Definition truthy_string (s : string) : bool :=
  match s with
  | "" => false
  | _ => true
  end.

(** Truthiness of an optional boolean property. *)
Definition truthy_flag (b : option bool) : bool :=
  match b with
  | Some true => true
  | _ => false
  end.

End JS.

Import JS.

(** ** Character classes *)

Module Chars.

Definition is_lower (c : ascii) : bool :=
  (97 <=? nat_of_ascii c)%nat && (nat_of_ascii c <=? 122)%nat.

Definition is_upper (c : ascii) : bool :=
  (65 <=? nat_of_ascii c)%nat && (nat_of_ascii c <=? 90)%nat.

Definition is_digit (c : ascii) : bool :=
  (48 <=? nat_of_ascii c)%nat && (nat_of_ascii c <=? 57)%nat.

Definition is_letter (c : ascii) : bool := is_lower c || is_upper c.

Definition is_alphanumeric (c : ascii) : bool := is_letter c || is_digit c.

(** The punctuation that ends or joins the parts of an abbreviation. *)
Definition structural_punctuation : list string :=
  [">"; ")"; "]"; "}"; "@"; "*"; "$"; "+"].

End Chars.

(** ** Protocol types (vscode-languageserver) *)

Module LSP.

Record Position := { line : Z; character : Z }.

Record Range := { start : Position; end_ : Position }.

Record TextEdit := { range : Range; newText : string }.

Inductive InsertTextFormat := PlainText | Snippet.

(** The completion item kinds; the server only uses [SnippetKind]
    ([CompletionItemKind.Snippet], number 15 of the protocol). *)
Inductive CompletionItemKind := TextKind | KeywordKind | SnippetKind.

Record CompletionData := { data_range : Range; textResult : string }.

(** The object literal returned by [buildCompletionItem]. *)
Record CompletionItem := {
  insertTextFormat : InsertTextFormat;
  label : string;
  detail : string;
  documentation : string;
  textEdit : TextEdit;
  kind : CompletionItemKind;
  data : CompletionData;
}.

(** A document held by the document manager. *)
Record TextDocument := {
  uri : string;
  languageId : string;
  getText : string;
}.

Record TextDocumentPositionParams := {
  textDocument : string;  (* textDocument.uri *)
  position : Position;
}.

Inductive TextDocumentSyncKind := SyncNone | SyncFull | SyncIncremental.

Record CompletionOptions := {
  resolveProvider : bool;
  triggerCharacters : list string;
}.

Record WorkspaceFoldersServerCapabilities := { supported : bool }.

Record ServerCapabilities := {
  textDocumentSync : TextDocumentSyncKind;
  completionProvider : CompletionOptions;
  workspace : option WorkspaceFoldersServerCapabilities;
}.

Record InitializeResult := { capabilities : ServerCapabilities }.

(** The parts of the client's capabilities read by [onInitialize]; an
    absent property is [None]. *)
Record WorkspaceClientCapabilities := {
  configuration : option bool;
  workspaceFolders : option bool;
}.

Record PublishDiagnosticsClientCapabilities := {
  relatedInformation : option bool;
}.

Record TextDocumentClientCapabilities := {
  publishDiagnostics : option PublishDiagnosticsClientCapabilities;
}.

Record ClientCapabilities := {
  client_workspace : option WorkspaceClientCapabilities;
  client_textDocument : option TextDocumentClientCapabilities;
}.

Record InitializeParams := { params_capabilities : ClientCapabilities }.

(** [workspace/configuration] request parameters. *)
Record ConfigurationItem := { scopeUri : string; section : string }.

End LSP.

(** ** The Emmet engine (package [emmet]) *)

Module Emmet.

(** Options of [extract]; the server passes [{}] or
    [{ type: "stylesheet" }]. *)
Record ExtractOptions := { type : option string }.

(** Result of a successful [extract]. *)
Record ExtractedAbbreviation := {
  abbreviation : string;
  location : Z;
  start : Z;
  end_ : Z;
}.

(** The [output.field] option: index and placeholder of a field to its
    text. *)
Definition FieldOutput : Type := Z -> string -> string.

(** The user configuration handed to [resolveConfig]: the syntax type
    when given, and the [output.field] option when given. *)
Record UserConfig := {
  config_type : option string;
  output_field : option FieldOutput;
}.

(** The functions imported from the package.  Each may throw. *)
Class Engine := {
  Config : Type;
  Abbreviation : Type;
  CSSAbbreviation : Type;
  extract : string -> Z -> ExtractOptions ->
            Outcome (option ExtractedAbbreviation);
  resolveConfig : UserConfig -> Outcome Config;
  parseMarkup : string -> Config -> Outcome Abbreviation;
  stringifyMarkup : Abbreviation -> Config -> Outcome string;
  parseStylesheet : string -> Config -> Outcome CSSAbbreviation;
  stringifyStylesheet : CSSAbbreviation -> Config -> Outcome string;
}.

(** A call made to the engine, with its arguments. *)
Inductive Call `{Engine} : Type :=
| CallExtract (line : string) (pos : Z) (opts : ExtractOptions)
| CallResolveConfig (config : UserConfig)
| CallParseMarkup (abbr : string) (config : Config)
| CallStringifyMarkup (tree : Abbreviation) (config : Config)
| CallParseStylesheet (abbr : string) (config : Config)
| CallStringifyStylesheet (tree : CSSAbbreviation) (config : Config).

End Emmet.

(** ** Settings *)

Record Settings := {
  html_filetypes : list string;
  css_filetypes : list string;
}.

Definition defaultSettings : Settings :=
  {| html_filetypes := ["html"]; css_filetypes := ["css"] |}.

(** A [Thenable<Settings>] as the server obtains one: [Promise.resolve]
    of a value, or the pending answer to a [workspace/configuration]
    request. *)
Inductive Thenable (A : Type) : Type :=
| PromiseResolve (a : A)
| GetConfiguration (item : LSP.ConfigurationItem).
Arguments PromiseResolve {A} a.
Arguments GetConfiguration {A} item.

(** What the server asked the client to notify it about. *)
Inductive Subscription := ConfigurationChanges | WorkspaceFolderChanges.

(** ** Server state and the handlers *)

Section Server.

Context `{Emmet.Engine}.

(** The module-level variables of [server.ts] ([hasConfigurationCapability]
    to [documentSettings]), the document manager's store [documents], and
    what the server has emitted: the lines written with
    [connection.console.log], the subscriptions made in [onInitialized],
    and the calls made to the Emmet engine, oldest first. *)
Record State := {
  hasConfigurationCapability : bool;
  hasWorkspaceFolderCapability : bool;
  hasDiagnosticRelatedInformationCapability : bool;
  globalSettings : Settings;
  documentSettings : gmap string (Thenable Settings);
  documents : gmap string LSP.TextDocument;
  console : list string;
  subscriptions : list Subscription;
  emmet_calls : list Emmet.Call;
}.

(** The state when the module has been loaded. *)
Definition initial_state : State :=
  {| hasConfigurationCapability := false;
     hasWorkspaceFolderCapability := false;
     hasDiagnosticRelatedInformationCapability := false;
     globalSettings := defaultSettings;
     documentSettings := ∅;
     documents := ∅;
     console := [];
     subscriptions := [];
     emmet_calls := [] |}.

Definition set_capabilities (c w d : bool) (s : State) : State :=
  {| hasConfigurationCapability := c;
     hasWorkspaceFolderCapability := w;
     hasDiagnosticRelatedInformationCapability := d;
     globalSettings := globalSettings s;
     documentSettings := documentSettings s;
     documents := documents s;
     console := console s;
     subscriptions := subscriptions s;
     emmet_calls := emmet_calls s |}.

Definition set_globalSettings (g : Settings) (s : State) : State :=
  {| hasConfigurationCapability := hasConfigurationCapability s;
     hasWorkspaceFolderCapability := hasWorkspaceFolderCapability s;
     hasDiagnosticRelatedInformationCapability :=
       hasDiagnosticRelatedInformationCapability s;
     globalSettings := g;
     documentSettings := documentSettings s;
     documents := documents s;
     console := console s;
     subscriptions := subscriptions s;
     emmet_calls := emmet_calls s |}.

Definition set_documentSettings (m : gmap string (Thenable Settings))
    (s : State) : State :=
  {| hasConfigurationCapability := hasConfigurationCapability s;
     hasWorkspaceFolderCapability := hasWorkspaceFolderCapability s;
     hasDiagnosticRelatedInformationCapability :=
       hasDiagnosticRelatedInformationCapability s;
     globalSettings := globalSettings s;
     documentSettings := m;
     documents := documents s;
     console := console s;
     subscriptions := subscriptions s;
     emmet_calls := emmet_calls s |}.

Definition set_documents (d : gmap string LSP.TextDocument)
    (s : State) : State :=
  {| hasConfigurationCapability := hasConfigurationCapability s;
     hasWorkspaceFolderCapability := hasWorkspaceFolderCapability s;
     hasDiagnosticRelatedInformationCapability :=
       hasDiagnosticRelatedInformationCapability s;
     globalSettings := globalSettings s;
     documentSettings := documentSettings s;
     documents := d;
     console := console s;
     subscriptions := subscriptions s;
     emmet_calls := emmet_calls s |}.

Definition set_console (c : list string) (s : State) : State :=
  {| hasConfigurationCapability := hasConfigurationCapability s;
     hasWorkspaceFolderCapability := hasWorkspaceFolderCapability s;
     hasDiagnosticRelatedInformationCapability :=
       hasDiagnosticRelatedInformationCapability s;
     globalSettings := globalSettings s;
     documentSettings := documentSettings s;
     documents := documents s;
     console := c;
     subscriptions := subscriptions s;
     emmet_calls := emmet_calls s |}.

Definition set_subscriptions (l : list Subscription) (s : State) : State :=
  {| hasConfigurationCapability := hasConfigurationCapability s;
     hasWorkspaceFolderCapability := hasWorkspaceFolderCapability s;
     hasDiagnosticRelatedInformationCapability :=
       hasDiagnosticRelatedInformationCapability s;
     globalSettings := globalSettings s;
     documentSettings := documentSettings s;
     documents := documents s;
     console := console s;
     subscriptions := l;
     emmet_calls := emmet_calls s |}.

Definition set_emmet_calls (l : list Emmet.Call) (s : State) : State :=
  {| hasConfigurationCapability := hasConfigurationCapability s;
     hasWorkspaceFolderCapability := hasWorkspaceFolderCapability s;
     hasDiagnosticRelatedInformationCapability :=
       hasDiagnosticRelatedInformationCapability s;
     globalSettings := globalSettings s;
     documentSettings := documentSettings s;
     documents := documents s;
     console := console s;
     subscriptions := subscriptions s;
     emmet_calls := l |}.

(** *** Handler code: state, and an error that may be thrown *)

Definition M (A : Type) : Type := State -> Outcome A * State.

Definition ret {A : Type} (a : A) : M A := fun s => (Returned a, s).

Definition bind {A B : Type} (m : M A) (k : A -> M B) : M B :=
  fun s =>
    match m s with
    | (Returned a, s') => k a s'
    | (Thrown e, s') => (Thrown e, s')
    end.

Definition throw {A : Type} (e : string) : M A := fun s => (Thrown e, s).

(** [try { m } catch (error) { handler error }] *)
Definition try_catch {A : Type} (m : M A) (handler : string -> M A) : M A :=
  fun s =>
    match m s with
    | (Returned a, s') => (Returned a, s')
    | (Thrown e, s') => handler e s'
    end.

Definition gets {A : Type} (f : State -> A) : M A :=
  fun s => (Returned (f s), s).

Definition modify (f : State -> State) : M unit :=
  fun s => (Returned tt, f s).

Notation "'let*' x ':=' m 'in' k" := (bind m (fun x => k))
  (at level 10, x name, m at level 100, k at level 200).
Notation "'do*' m 'in' k" := (bind m (fun _ => k))
  (at level 10, m at level 100, k at level 200).

(** [connection.console.log(msg)] *)
Definition console_log (msg : string) : M unit :=
  modify (fun s => set_console (console s ++ [msg]) s).

(** A call to the engine: the call is recorded and its outcome is the
    outcome of the handler code at that point. *)
Definition emmet {A : Type} (c : Emmet.Call) (r : Outcome A) : M A :=
  fun s => (r, set_emmet_calls (emmet_calls s ++ [c]) s).

Definition extract (line : string) (pos : Z) (opts : Emmet.ExtractOptions)
  : M (option Emmet.ExtractedAbbreviation) :=
  emmet (Emmet.CallExtract line pos opts) (Emmet.extract line pos opts).

Definition resolveConfig (config : Emmet.UserConfig) : M Emmet.Config :=
  emmet (Emmet.CallResolveConfig config) (Emmet.resolveConfig config).

Definition parseMarkup (abbr : string) (config : Emmet.Config)
  : M Emmet.Abbreviation :=
  emmet (Emmet.CallParseMarkup abbr config) (Emmet.parseMarkup abbr config).

Definition stringifyMarkup (tree : Emmet.Abbreviation)
    (config : Emmet.Config) : M string :=
  emmet (Emmet.CallStringifyMarkup tree config)
        (Emmet.stringifyMarkup tree config).

Definition parseStylesheet (abbr : string) (config : Emmet.Config)
  : M Emmet.CSSAbbreviation :=
  emmet (Emmet.CallParseStylesheet abbr config)
        (Emmet.parseStylesheet abbr config).

Definition stringifyStylesheet (tree : Emmet.CSSAbbreviation)
    (config : Emmet.Config) : M string :=
  emmet (Emmet.CallStringifyStylesheet tree config)
        (Emmet.stringifyStylesheet tree config).

(** *** [connection.onInitialize] *)

Definition triggerCharacters : list string :=
  [ ">"; ")"; "]"; "}";
    "@"; "*"; "$"; "+";
    (* alpha *)
    "a"; "b"; "c"; "d"; "e"; "f"; "g"; "h"; "i"; "j"; "k"; "l"; "m";
    "n"; "o"; "p"; "q"; "r"; "s"; "t"; "u"; "v"; "w"; "x"; "y"; "z";
    (* num *)
    "0"; "1"; "2"; "3"; "4"; "5"; "6"; "7"; "8"; "9" ].

(** [!!(capabilities.workspace && !!capabilities.workspace.configuration)] *)
Definition supports_configuration (c : LSP.ClientCapabilities) : bool :=
  match LSP.client_workspace c with
  | Some w => truthy_flag (LSP.configuration w)
  | None => false
  end.

Definition supports_workspaceFolders (c : LSP.ClientCapabilities) : bool :=
  match LSP.client_workspace c with
  | Some w => truthy_flag (LSP.workspaceFolders w)
  | None => false
  end.

Definition supports_relatedInformation (c : LSP.ClientCapabilities) : bool :=
  match LSP.client_textDocument c with
  | Some t =>
      match LSP.publishDiagnostics t with
      | Some p => truthy_flag (LSP.relatedInformation p)
      | None => false
      end
  | None => false
  end.

Definition onInitialize (params : LSP.InitializeParams)
  : M LSP.InitializeResult :=
  let capabilities := LSP.params_capabilities params in
  do* modify (set_capabilities (supports_configuration capabilities)
                               (supports_workspaceFolders capabilities)
                               (supports_relatedInformation capabilities)) in
  let* folders := gets hasWorkspaceFolderCapability in
  ret {| LSP.capabilities :=
           {| LSP.textDocumentSync := LSP.SyncIncremental;
              LSP.completionProvider :=
                {| LSP.resolveProvider := true;
                   LSP.triggerCharacters := triggerCharacters |};
              LSP.workspace :=
                if folders then Some {| LSP.supported := true |}
                else None |} |}.

(** *** [connection.onInitialized] *)

Definition onInitialized : M unit :=
  let* config := gets hasConfigurationCapability in
  do* (if config
       then modify (fun s =>
              set_subscriptions (subscriptions s ++ [ConfigurationChanges]) s)
       else ret tt) in
  let* folders := gets hasWorkspaceFolderCapability in
  if folders
  then modify (fun s =>
         set_subscriptions (subscriptions s ++ [WorkspaceFolderChanges]) s)
  else ret tt.

(** The listener given to [connection.workspace.onDidChangeWorkspaceFolders]
    in [onInitialized]. *)
Definition onDidChangeWorkspaceFolders : M unit :=
  console_log "Workspace folder change event received.".

(** A workspace folder change notification: every listener registered
    so far is called, in the order of registration. *)
Definition workspaceFoldersChanged (s : State) : State :=
  fold_left
    (fun s' subscription =>
       match subscription with
       | WorkspaceFolderChanges => snd (onDidChangeWorkspaceFolders s')
       | ConfigurationChanges => s'
       end)
    (subscriptions s) s.

(** *** [connection.onDidChangeConfiguration] *)

Definition onDidChangeConfiguration (settings : Settings) : M unit :=
  modify (set_globalSettings settings).

(** *** [getDocumentSettings] *)

(** The thenable obtained from [connection.workspace.getConfiguration] is
    kept as a value naming the request; the requests sent to the client
    are not recorded in the state. *)

Definition getDocumentSettings (resource : string) : M (Thenable Settings) :=
  let* config := gets hasConfigurationCapability in
  if negb config then
    let* g := gets globalSettings in
    ret (PromiseResolve g)
  else
    let* result := gets (fun s => documentSettings s !! resource) in
    match result with
    | None =>
        let result :=
          GetConfiguration {| LSP.scopeUri := resource;
                              LSP.section := "languageServerExample" |} in
        do* modify (fun s =>
              set_documentSettings
                (<[resource := result]> (documentSettings s)) s) in
        ret result
    | Some result => ret result
    end.

(** *** [getCssSnippet] and [getHtmlSnippet] *)

(** The arrow function given as the [output.field] option in both: a
    template literal made of a dollar sign and an opening brace, the
    index, then a colon and the placeholder when the placeholder is
    truthy, and a closing brace. *)
Definition outputField : Emmet.FieldOutput :=
  fun index placeholder =>
    "${" ++ number_to_string index
         ++ (if truthy_string placeholder then ":" ++ placeholder else "")
         ++ "}".

Definition cssUserConfig : Emmet.UserConfig :=
  {| Emmet.config_type := Some "stylesheet";
     Emmet.output_field := Some outputField |}.

Definition htmlUserConfig : Emmet.UserConfig :=
  {| Emmet.config_type := None;
     Emmet.output_field := Some outputField |}.

Definition getCssSnippet (abbreviation : string) : M string :=
  let* cssConfig := resolveConfig cssUserConfig in
  let* markup := parseStylesheet abbreviation cssConfig in
  stringifyStylesheet markup cssConfig.

Definition getHtmlSnippet (abbreviation : string) : M string :=
  let* htmlconfig := resolveConfig htmlUserConfig in
  let* markup := parseMarkup abbreviation htmlconfig in
  stringifyMarkup markup htmlconfig.

(** *** [buildCompletionItem] and [buildRange] *)

Definition buildCompletionItem (abbreviation textResult : string)
    (range : LSP.Range) : LSP.CompletionItem :=
  {| LSP.insertTextFormat := LSP.Snippet;
     LSP.label := abbreviation;
     LSP.detail := abbreviation;
     LSP.documentation := textResult;
     LSP.textEdit := {| LSP.range := range; LSP.newText := textResult |};
     LSP.kind := LSP.SnippetKind;
     LSP.data := {| LSP.data_range := range;
                    LSP.textResult := textResult |} |}.

Definition buildRange (linenr left right : Z) : LSP.Range :=
  {| LSP.start := {| LSP.line := linenr; LSP.character := left |};
     LSP.end_ := {| LSP.line := linenr; LSP.character := right |} |}.

(** *** [getCompeletionItem] *)

(** [opts.type == 'stylesheet'] *)
Definition is_stylesheet (opts : Emmet.ExtractOptions) : bool :=
  match Emmet.type opts with
  | Some t => String.eqb t "stylesheet"
  | None => false
  end.

(** The function returns the item, or [undefined] ([None]) when it falls
    off its end.  An omitted [opts] argument is [None]. *)
Definition getCompeletionItem (linenr : Z) (line : string) (char : Z)
    (opts : option Emmet.ExtractOptions) : M (option LSP.CompletionItem) :=
  let opts := match opts with
              | Some o => o
              | None => {| Emmet.type := None |}
              end in
  try_catch
    (let* extractPosition := extract line char opts in
     match extractPosition with
     | Some extractPosition =>
         let left := Emmet.start extractPosition in
         let right := Emmet.start extractPosition in
         let abbreviation := Emmet.abbreviation extractPosition in
         let* textResult :=
           (if is_stylesheet opts
            then getCssSnippet abbreviation
            else getHtmlSnippet abbreviation) in
         let range := buildRange linenr left right in
         ret (Some (buildCompletionItem abbreviation textResult range))
     | None => ret None
     end)
    (fun error =>
       do* console_log ("ERR: " ++ error) in
       ret None).

(** *** [documents.onDidClose] *)

Definition onDidClose (document : LSP.TextDocument) : M unit :=
  modify (fun s =>
    set_documentSettings (delete (LSP.uri document) (documentSettings s)) s).

(** *** [connection.onCompletion] *)

(** [result.push(completionItem)] when [completionItem] is truthy. *)
Definition push_if_item (result : list LSP.CompletionItem)
    (completionItem : option LSP.CompletionItem) : list LSP.CompletionItem :=
  match completionItem with
  | Some item => result ++ [item]
  | None => result
  end.

(** The statements inside the handler's [try]. *)
Definition onCompletion_try (_textDocumentPosition : LSP.TextDocumentPositionParams)
  : M (list LSP.CompletionItem) :=
  let* docs := gets (fun s =>
                 documents s !! LSP.textDocument _textDocumentPosition) in
  match docs with
  | None => throw "failed to find document"
  | Some docs =>
      let languageId := LSP.languageId docs in
      let content := LSP.getText docs in
      let linenr := LSP.line (LSP.position _textDocumentPosition) in
      let line := String_ (index (split_lines content) linenr) in
      let character := LSP.character (LSP.position _textDocumentPosition) in
      let result := [] in
      let* html_filetypes := gets (fun s => html_filetypes (globalSettings s)) in
      let* result :=
        (if negb (indexOf html_filetypes languageId =? -1)%Z
         then let* completionItem :=
                getCompeletionItem linenr line character None in
              ret (push_if_item result completionItem)
         else ret result) in
      let* css_filetypes := gets (fun s => css_filetypes (globalSettings s)) in
      let* result :=
        (if negb (indexOf css_filetypes languageId =? -1)%Z
         then let* completionItem :=
                getCompeletionItem linenr line character
                  (Some {| Emmet.type := Some "stylesheet" |}) in
              ret (push_if_item result completionItem)
         else ret result) in
      ret result
  end.

Definition onCompletion (_textDocumentPosition : LSP.TextDocumentPositionParams)
  : M (list LSP.CompletionItem) :=
  try_catch (onCompletion_try _textDocumentPosition)
    (fun error =>
       do* console_log ("ERR: " ++ error) in
       ret []).

(** *** The server as a transition system *)

(** What can happen to a running server: one of its handlers is invoked,
    the document manager updates its store (a document is opened, changed
    or closed), or the client reports a workspace folder change. *)
Inductive Event :=
| Initialize (params : LSP.InitializeParams)
| Initialized
| DidChangeConfiguration (settings : Settings)
| DidClose (document : LSP.TextDocument)
| Completion (params : LSP.TextDocumentPositionParams)
| DocumentsSync (docs : gmap string LSP.TextDocument)
| DidChangeWorkspaceFolders.

Definition step (ev : Event) (s : State) : State :=
  match ev with
  | Initialize params => snd (onInitialize params s)
  | Initialized => snd (onInitialized s)
  | DidChangeConfiguration settings =>
      snd (onDidChangeConfiguration settings s)
  | DidClose document => snd (onDidClose document s)
  | Completion params => snd (onCompletion params s)
  | DocumentsSync docs => set_documents docs s
  | DidChangeWorkspaceFolders => workspaceFoldersChanged s
  end.

Definition run (evs : list Event) (s : State) : State :=
  fold_left (fun s ev => step ev s) evs s.

Inductive reachable : State -> Prop :=
| reachable_initial : reachable initial_state
| reachable_step ev s : reachable s -> reachable (step ev s).

End Server.

(** ** What one request does, as values

    The outcome of the handler code above, computed without the state:
    the value produced, the lines logged and the engine calls made.  The
    theorems below show that the handlers do exactly this. *)

Section Runs.

Context `{Emmet.Engine}.

(** Expansion of a markup abbreviation under a user configuration. *)
Definition markup_run (config : Emmet.UserConfig) (abbr : string)
  : Outcome string * list Emmet.Call :=
  match Emmet.resolveConfig config with
  | Thrown e => (Thrown e, [Emmet.CallResolveConfig config])
  | Returned cfg =>
      match Emmet.parseMarkup abbr cfg with
      | Thrown e =>
          (Thrown e, [Emmet.CallResolveConfig config;
                      Emmet.CallParseMarkup abbr cfg])
      | Returned tree =>
          (Emmet.stringifyMarkup tree cfg,
           [Emmet.CallResolveConfig config;
            Emmet.CallParseMarkup abbr cfg;
            Emmet.CallStringifyMarkup tree cfg])
      end
  end.

(** Expansion of a stylesheet abbreviation under a user configuration. *)
Definition stylesheet_run (config : Emmet.UserConfig) (abbr : string)
  : Outcome string * list Emmet.Call :=
  match Emmet.resolveConfig config with
  | Thrown e => (Thrown e, [Emmet.CallResolveConfig config])
  | Returned cfg =>
      match Emmet.parseStylesheet abbr cfg with
      | Thrown e =>
          (Thrown e, [Emmet.CallResolveConfig config;
                      Emmet.CallParseStylesheet abbr cfg])
      | Returned tree =>
          (Emmet.stringifyStylesheet tree cfg,
           [Emmet.CallResolveConfig config;
            Emmet.CallParseStylesheet abbr cfg;
            Emmet.CallStringifyStylesheet tree cfg])
      end
  end.

(** The snippet text for an abbreviation, by the grammar [opts] selects. *)
Definition snippet_run (opts : Emmet.ExtractOptions) (abbr : string)
  : Outcome string * list Emmet.Call :=
  if is_stylesheet opts
  then stylesheet_run cssUserConfig abbr
  else markup_run htmlUserConfig abbr.

(** The preview text of the specification: the same expansion with the
    [output.field] option left unset, so that the engine renders fields
    its own way. *)
Definition spec_preview_run (opts : Emmet.ExtractOptions) (abbr : string)
  : Outcome string * list Emmet.Call :=
  if is_stylesheet opts
  then stylesheet_run {| Emmet.config_type := Some "stylesheet";
                         Emmet.output_field := None |} abbr
  else markup_run {| Emmet.config_type := None;
                     Emmet.output_field := None |} abbr.

(** One grammar's attempt: the item if any, the lines logged, the engine
    calls made. *)
Definition attempt_run (linenr : Z) (line : string) (char : Z)
    (opts : Emmet.ExtractOptions)
  : option LSP.CompletionItem * list string * list Emmet.Call :=
  let scan := Emmet.CallExtract line char opts in
  match Emmet.extract line char opts with
  | Thrown e => (None, ["ERR: " ++ e], [scan])
  | Returned None => (None, [], [scan])
  | Returned (Some found) =>
      let abbr := Emmet.abbreviation found in
      match snippet_run opts abbr with
      | (Thrown e, calls) => (None, ["ERR: " ++ e], scan :: calls)
      | (Returned text, calls) =>
          (Some (buildCompletionItem abbr text
                   (buildRange linenr (Emmet.start found)
                                      (Emmet.start found))),
           [], scan :: calls)
      end
  end.

Definition markup_opts : Emmet.ExtractOptions := {| Emmet.type := None |}.

Definition stylesheet_opts : Emmet.ExtractOptions :=
  {| Emmet.type := Some "stylesheet" |}.

(** The line a request is answered on. *)
Definition requested_line (doc : LSP.TextDocument)
    (p : LSP.TextDocumentPositionParams) : string :=
  String_ (index (split_lines (LSP.getText doc)) (LSP.line (LSP.position p))).

(** A grammar's attempt when its file type list selects the document,
    nothing otherwise. *)
Definition routed_run (filetypes : list string) (doc : LSP.TextDocument)
    (p : LSP.TextDocumentPositionParams) (opts : Emmet.ExtractOptions)
  : option LSP.CompletionItem * list string * list Emmet.Call :=
  if negb (indexOf filetypes (LSP.languageId doc) =? -1)%Z
  then attempt_run (LSP.line (LSP.position p)) (requested_line doc p)
                   (LSP.character (LSP.position p)) opts
  else (None, [], []).

(** The state after logging [lines] and making [calls]. *)
Definition after (lines : list string) (calls : list Emmet.Call)
    (s : State) : State :=
  set_emmet_calls (emmet_calls s ++ calls) (set_console (console s ++ lines) s).

Definition item_list (o : option LSP.CompletionItem) : list LSP.CompletionItem :=
  match o with
  | Some item => [item]
  | None => []
  end.

(** A call to the scanner, as opposed to the expansion functions. *)
Definition is_scan (c : Emmet.Call) : Prop :=
  match c with
  | Emmet.CallExtract _ _ _ => True
  | _ => False
  end.

End Runs.

(** ** A miniature engine

    A small stand-in for the [emmet] package, so that the handlers can be
    run on concrete requests.  It knows one-element markup abbreviations
    (letters and digits) and one-property stylesheet abbreviations
    (lowercase letters, digits and dashes); like the package, it renders
    a field with the [output.field] option when one is configured and
    with the bare placeholder otherwise. *)

Module MiniEmmet.

Definition is_dash (c : ascii) : bool := (nat_of_ascii c =? 45)%nat.

Definition is_space (c : ascii) : bool :=
  (nat_of_ascii c =? 32)%nat || (nat_of_ascii c =? 9)%nat.

Fixpoint all_chars (p : ascii -> bool) (s : string) : bool :=
  match s with
  | "" => true
  | String c rest => p c && all_chars p rest
  end.

(** The last run of non-blank characters of [s] and the offset at which
    it starts; [i] is the offset of the first character of [s]. *)
Fixpoint last_word (s : string) (i : Z) (start : Z) (word : string)
  : Z * string :=
  match s with
  | "" => (start, word)
  | String c rest =>
      if is_space c then last_word rest (i + 1) (i + 1) ""
      else last_word rest (i + 1) start (word ++ String c "")
  end.

Definition extract (line : string) (pos : Z) (opts : Emmet.ExtractOptions)
  : Outcome (option Emmet.ExtractedAbbreviation) :=
  if (pos <? 0)%Z || (Z.of_nat (String.length line) <? pos)%Z
  then Thrown "RangeError: position outside of the line"
  else
    let '(start, word) :=
      last_word (String.substring 0 (Z.to_nat pos) line) 0 0 "" in
    match word with
    | "" => Returned None
    | _ => Returned (Some {| Emmet.abbreviation := word;
                             Emmet.location := start;
                             Emmet.start := start;
                             Emmet.end_ := pos |})
    end.

Definition field (config : Emmet.UserConfig) : Emmet.FieldOutput :=
  match Emmet.output_field config with
  | Some f => f
  | None => fun _ placeholder => placeholder
  end.

Definition parseMarkup (abbr : string) (config : Emmet.UserConfig)
  : Outcome string :=
  if all_chars Chars.is_alphanumeric abbr
  then Returned abbr
  else Thrown "Error: unexpected character in markup abbreviation".

Definition stringifyMarkup (tree : string) (config : Emmet.UserConfig)
  : Outcome string :=
  Returned ("<" ++ tree ++ ">" ++ field config 0 "" ++ "</" ++ tree ++ ">").

Definition parseStylesheet (abbr : string) (config : Emmet.UserConfig)
  : Outcome string :=
  if all_chars (fun c => Chars.is_lower c || Chars.is_digit c || is_dash c) abbr
  then Returned abbr
  else Thrown "Error: unexpected character in stylesheet abbreviation".

Definition stringifyStylesheet (tree : string) (config : Emmet.UserConfig)
  : Outcome string :=
  Returned (tree ++ ": " ++ field config 0 "" ++ ";").

Definition engine : Emmet.Engine :=
  {| Emmet.Config := Emmet.UserConfig;
     Emmet.Abbreviation := string;
     Emmet.CSSAbbreviation := string;
     Emmet.extract := extract;
     Emmet.resolveConfig := fun config => Returned config;
     Emmet.parseMarkup := parseMarkup;
     Emmet.stringifyMarkup := stringifyMarkup;
     Emmet.parseStylesheet := parseStylesheet;
     Emmet.stringifyStylesheet := stringifyStylesheet |}.

(** The same engine with a configuration resolver that rejects every
    configuration. *)
Definition unconfigurable : Emmet.Engine :=
  {| Emmet.Config := Emmet.UserConfig;
     Emmet.Abbreviation := string;
     Emmet.CSSAbbreviation := string;
     Emmet.extract := extract;
     Emmet.resolveConfig :=
       fun _ => Thrown "TypeError: cannot resolve the configuration";
     Emmet.parseMarkup := parseMarkup;
     Emmet.stringifyMarkup := stringifyMarkup;
     Emmet.parseStylesheet := parseStylesheet;
     Emmet.stringifyStylesheet := stringifyStylesheet |}.

(** A server with one open document. *)
Definition server_with (capability : bool) (settings : Settings)
    (doc : LSP.TextDocument) : @State engine :=
  set_documents {[ LSP.uri doc := doc ]}
    (set_globalSettings settings
       (set_capabilities capability false false (@initial_state engine))).

Definition document (languageId text : string) : LSP.TextDocument :=
  {| LSP.uri := "file:///demo";
     LSP.languageId := languageId;
     LSP.getText := text |}.

Definition request (line character : Z) : LSP.TextDocumentPositionParams :=
  {| LSP.textDocument := "file:///demo";
     LSP.position := {| LSP.line := line; LSP.character := character |} |}.

End MiniEmmet.

(** ** Vocabulary for the further properties *)

(** Number of line feeds in a text. *)
Fixpoint count_LF (s : string) : nat :=
  match s with
  | "" => 0
  | String c rest =>
      if Ascii.eqb c LF then S (count_LF rest) else count_LF rest
  end.

(** The characters of a text do not include [c]. *)
Definition free_of (c : ascii) (s : string) : Prop :=
  ~ In c (list_ascii_of_string s).

(** A console line written by one of the two [catch] blocks. *)
Definition is_error_line (l : string) : Prop :=
  exists e, l = "ERR: " ++ e.

Section Dispatch.

Context `{Emmet.Engine}.

(** An engine call as one grammar's attempt on [line] at [char] with
    options [opts] makes it: the scan of that line, the resolution of the
    configuration of the grammar [opts] selects, or a parse or serialize
    call of that grammar. *)
Definition call_of_attempt (line : string) (char : Z)
    (opts : Emmet.ExtractOptions) (c : Emmet.Call) : Prop :=
  match c with
  | Emmet.CallExtract l pos o => l = line /\ pos = char /\ o = opts
  | Emmet.CallResolveConfig config =>
      config = if is_stylesheet opts then cssUserConfig else htmlUserConfig
  | Emmet.CallParseMarkup _ _
  | Emmet.CallStringifyMarkup _ _ => is_stylesheet opts = false
  | Emmet.CallParseStylesheet _ _
  | Emmet.CallStringifyStylesheet _ _ => is_stylesheet opts = true
  end.

(** The subscriptions a client with capabilities [c] leads to. *)
Definition subscriptions_for (c : LSP.ClientCapabilities)
  : list Subscription :=
  (if supports_configuration c then [ConfigurationChanges] else [])
  ++ (if supports_workspaceFolders c then [WorkspaceFolderChanges] else []).

(** The events of a run include no configuration change. *)
Definition no_configuration_change (evs : list Event) : Prop :=
  forall settings, ~ In (DidChangeConfiguration settings) evs.

End Dispatch.

(** * Properties *)

(** ** The JavaScript built-ins *)

Lemma indexOf_from_spec (xs : list string) (x : string) (i : Z) :
  0 <= i ->
  (indexOf_from xs x i = -1 /\ ~ In x xs) \/
  (i <= indexOf_from xs x i /\ In x xs).
Proof.
  revert i. induction xs as [|y ys IH]; intros i Hi; simpl.
  - left. split; [reflexivity | tauto].
  - destruct (String.eqb_spec y x) as [->|Hne].
    + right. split; [lia | now left].
    + destruct (IH (i + 1) ltac:(lia)) as [[E Hn]|[Hle Hin]].
      * left. split; [exact E | intros [Heq|Hin]; [congruence | tauto]].
      * right. split; [lia | now right].
Qed.

Lemma indexOf_test (xs : list string) (x : string) :
  negb (indexOf xs x =? -1)%Z = true <-> In x xs.
Proof.
  unfold indexOf.
  destruct (indexOf_from_spec xs x 0 ltac:(lia)) as [[E Hn]|[Hle Hin]].
  - rewrite E. simpl. split; [discriminate | tauto].
  - destruct (Z.eqb_spec (indexOf_from xs x 0) (-1)); [lia|].
    simpl. tauto.
Qed.

Lemma indexOf_test_false (xs : list string) (x : string) :
  negb (indexOf xs x =? -1)%Z = false <-> ~ In x xs.
Proof.
  rewrite <- indexOf_test.
  destruct (negb (indexOf xs x =? -1)%Z); split; congruence.
Qed.

Lemma push_front_length (c : ascii) (pieces : list string) :
  (1 <= length (push_front c pieces))%nat.
Proof. destruct pieces; simpl; lia. Qed.

Lemma split_lines_length (s : string) : (1 <= length (split_lines s))%nat.
Proof.
  induction s as [|c rest IH]; simpl; [lia|].
  destruct (Ascii.eqb c LF); simpl; [lia|].
  destruct rest as [|c' rest'].
  - apply push_front_length.
  - destruct (Ascii.eqb c CR && Ascii.eqb c' LF);
      [exact IH | apply push_front_length].
Qed.

Lemma index_out_of_range {A : Type} (xs : list A) (i : Z) :
  Z.of_nat (length xs) <= i -> index xs i = None.
Proof.
  intros Hi. unfold index.
  destruct (Z.ltb_spec i 0); [reflexivity|].
  apply lookup_ge_None. lia.
Qed.

Lemma index_in_range {A : Type} (xs : list A) (i : Z) :
  0 <= i < Z.of_nat (length xs) -> is_Some (index xs i).
Proof.
  intros Hi. unfold index.
  destruct (Z.ltb_spec i 0); [lia|].
  apply lookup_lt_is_Some. lia.
Qed.

(** Within the document, the requested line is the piece at that index. *)
Lemma requested_line_in_range (doc : LSP.TextDocument)
    (p : LSP.TextDocumentPositionParams) :
  0 <= LSP.line (LSP.position p)
    < Z.of_nat (length (split_lines (LSP.getText doc))) ->
  split_lines (LSP.getText doc) !! Z.to_nat (LSP.line (LSP.position p))
  = Some (requested_line doc p).
Proof.
  intros Hrange. unfold requested_line.
  destruct (index_in_range _ _ Hrange) as [l Hl]. rewrite Hl.
  unfold index in Hl.
  destruct (Z.ltb_spec (LSP.line (LSP.position p)) 0); [lia | exact Hl].
Qed.

Example split_lines_lf_crlf :
  split_lines ("ab" ++ String LF ("cd" ++ String CR (String LF "ef")))
  = ["ab"; "cd"; "ef"].
Proof. reflexivity. Qed.

Example split_lines_lone_cr :
  split_lines ("a" ++ String CR "b") = ["a" ++ String CR "b"].
Proof. reflexivity. Qed.

Example split_lines_empty : split_lines "" = [""].
Proof. reflexivity. Qed.

(** ** The handlers run as the pure runs say *)

Section Properties.

Context `{Emmet.Engine}.

Lemma state_ext (s s' : State) :
  hasConfigurationCapability s = hasConfigurationCapability s' ->
  hasWorkspaceFolderCapability s = hasWorkspaceFolderCapability s' ->
  hasDiagnosticRelatedInformationCapability s
    = hasDiagnosticRelatedInformationCapability s' ->
  globalSettings s = globalSettings s' ->
  documentSettings s = documentSettings s' ->
  documents s = documents s' ->
  console s = console s' ->
  subscriptions s = subscriptions s' ->
  emmet_calls s = emmet_calls s' ->
  s = s'.
Proof.
  destruct s, s'; simpl; intros; subst; reflexivity.
Qed.

Lemma after_nil (s : State) : after [] [] s = s.
Proof.
  apply state_ext; simpl; try reflexivity; apply app_nil_r.
Qed.

Lemma after_after (l1 l2 : list string) (c1 c2 : list Emmet.Call)
    (s : State) :
  after l2 c2 (after l1 c1 s) = after (l1 ++ l2) (c1 ++ c2) s.
Proof.
  apply state_ext; simpl; try reflexivity; symmetry; apply app_assoc.
Qed.

Lemma getHtmlSnippet_run (abbr : string) (s : State) :
  getHtmlSnippet abbr s =
  (fst (markup_run htmlUserConfig abbr),
   after [] (snd (markup_run htmlUserConfig abbr)) s).
Proof.
  unfold getHtmlSnippet, markup_run, bind, resolveConfig, parseMarkup,
    stringifyMarkup, emmet.
  destruct (Emmet.resolveConfig htmlUserConfig) as [cfg|e]; simpl.
  - destruct (Emmet.parseMarkup abbr cfg) as [tree|e]; simpl;
      f_equal; apply state_ext; simpl; try reflexivity;
      rewrite ?app_nil_r, <- ?app_assoc; reflexivity.
  - f_equal. apply state_ext; simpl; try reflexivity.
    now rewrite app_nil_r.
Qed.

Lemma getCssSnippet_run (abbr : string) (s : State) :
  getCssSnippet abbr s =
  (fst (stylesheet_run cssUserConfig abbr),
   after [] (snd (stylesheet_run cssUserConfig abbr)) s).
Proof.
  unfold getCssSnippet, stylesheet_run, bind, resolveConfig, parseStylesheet,
    stringifyStylesheet, emmet.
  destruct (Emmet.resolveConfig cssUserConfig) as [cfg|e]; simpl.
  - destruct (Emmet.parseStylesheet abbr cfg) as [tree|e]; simpl;
      f_equal; apply state_ext; simpl; try reflexivity;
      rewrite ?app_nil_r, <- ?app_assoc; reflexivity.
  - f_equal. apply state_ext; simpl; try reflexivity.
    now rewrite app_nil_r.
Qed.

Lemma snippet_run_spec (opts : Emmet.ExtractOptions) (abbr : string)
    (s : State) :
  (if is_stylesheet opts then getCssSnippet abbr else getHtmlSnippet abbr) s
  = (fst (snippet_run opts abbr), after [] (snd (snippet_run opts abbr)) s).
Proof.
  unfold snippet_run. destruct (is_stylesheet opts).
  - apply getCssSnippet_run.
  - apply getHtmlSnippet_run.
Qed.

(** A grammar's attempt always returns, with the item, the log lines and
    the engine calls of [attempt_run]. *)
Lemma getCompeletionItem_run (linenr : Z) (line : string) (char : Z)
    (opts : option Emmet.ExtractOptions) (s : State) :
  let o := match opts with Some o => o | None => markup_opts end in
  getCompeletionItem linenr line char opts s =
  (Returned (fst (fst (attempt_run linenr line char o))),
   after (snd (fst (attempt_run linenr line char o)))
         (snd (attempt_run linenr line char o)) s).
Proof.
  intros o. unfold getCompeletionItem. fold markup_opts. fold o.
  unfold try_catch, attempt_run.
  unfold bind at 1. unfold extract, emmet.
  destruct (Emmet.extract line char o) as [[found|]|e]; simpl.
  - unfold bind. rewrite snippet_run_spec.
    destruct (snippet_run o (Emmet.abbreviation found)) as [[text|e] calls];
      simpl; unfold ret, console_log, modify; simpl;
      f_equal; apply state_ext; simpl; try reflexivity;
      rewrite ?app_nil_r, <- ?app_assoc; reflexivity.
  - unfold ret. f_equal. apply state_ext; simpl; try reflexivity.
    now rewrite app_nil_r.
  - unfold bind, console_log, modify, ret. simpl.
    f_equal.
Qed.

(** A request for a document the manager does not hold. *)
Lemma onCompletion_missing (p : LSP.TextDocumentPositionParams) (s : State) :
  documents s !! LSP.textDocument p = None ->
  onCompletion p s =
  (Returned [], after ["ERR: failed to find document"] [] s).
Proof.
  intros Hdoc. unfold onCompletion, try_catch, onCompletion_try.
  unfold bind at 1. unfold gets. rewrite Hdoc. unfold throw.
  unfold bind, console_log, modify, ret. f_equal.
  apply state_ext; simpl; try reflexivity. now rewrite app_nil_r.
Qed.

(** A request for a held document: the markup attempt when routed, then
    the stylesheet attempt when routed. *)
Lemma onCompletion_run (p : LSP.TextDocumentPositionParams) (s : State)
    (doc : LSP.TextDocument) :
  documents s !! LSP.textDocument p = Some doc ->
  let html := routed_run (html_filetypes (globalSettings s)) doc p markup_opts in
  let css :=
    routed_run (css_filetypes (globalSettings s)) doc p stylesheet_opts in
  onCompletion p s =
  (Returned (item_list (fst (fst html)) ++ item_list (fst (fst css)))%list,
   after (snd (fst html) ++ snd (fst css))%list (snd html ++ snd css)%list s).
Proof.
  intros Hdoc html css. unfold onCompletion, try_catch, onCompletion_try.
  unfold bind at 1. unfold gets at 1. rewrite Hdoc.
  unfold bind at 1. unfold gets at 1.
  subst html css. unfold routed_run. fold (requested_line doc p).
  set (linenr := LSP.line (LSP.position p)).
  set (char := LSP.character (LSP.position p)).
  set (ln := requested_line doc p).
  unfold bind at 1.
  destruct (negb (indexOf (html_filetypes (globalSettings s))
                          (LSP.languageId doc) =? -1)%Z).
  - unfold bind at 1. rewrite getCompeletionItem_run. unfold ret at 1.
    unfold bind at 1. unfold gets at 1. simpl globalSettings.
    unfold bind at 1.
    destruct (negb (indexOf (css_filetypes (globalSettings s))
                            (LSP.languageId doc) =? -1)%Z).
    + unfold bind at 1. rewrite getCompeletionItem_run. unfold ret.
      rewrite after_after. fold stylesheet_opts.
      destruct (attempt_run linenr ln char markup_opts) as [[i1 l1] c1].
      destruct (attempt_run linenr ln char stylesheet_opts) as [[i2 l2] c2].
      simpl. destruct i1, i2; reflexivity.
    + unfold ret. simpl.
      destruct (attempt_run linenr ln char markup_opts) as [[i1 l1] c1].
      simpl. rewrite !app_nil_r. destruct i1; reflexivity.
  - unfold ret at 1. unfold bind at 1. unfold gets at 1.
    unfold bind at 1.
    destruct (negb (indexOf (css_filetypes (globalSettings s))
                            (LSP.languageId doc) =? -1)%Z).
    + unfold bind at 1. rewrite getCompeletionItem_run. unfold ret.
      fold stylesheet_opts.
      destruct (attempt_run linenr ln char stylesheet_opts) as [[i2 l2] c2].
      simpl. destruct i2; reflexivity.
    + unfold ret. simpl. now rewrite after_nil.
Qed.

(** An attempt that yields an item found an abbreviation and expanded it. *)
Lemma attempt_run_item (linenr : Z) (line : string) (char : Z)
    (opts : Emmet.ExtractOptions) (item : LSP.CompletionItem) :
  fst (fst (attempt_run linenr line char opts)) = Some item ->
  exists found text,
    Emmet.extract line char opts = Returned (Some found) /\
    fst (snippet_run opts (Emmet.abbreviation found)) = Returned text /\
    item = buildCompletionItem (Emmet.abbreviation found) text
             (buildRange linenr (Emmet.start found) (Emmet.start found)).
Proof.
  unfold attempt_run.
  destruct (Emmet.extract line char opts) as [[found|]|e]; simpl;
    try discriminate.
  destruct (snippet_run opts (Emmet.abbreviation found))
    as [[text|e] calls] eqn:Hrun; simpl; try discriminate.
  intros [= <-]. exists found, text. rewrite Hrun.
  repeat split; reflexivity.
Qed.


Lemma snippet_run_no_scan (opts : Emmet.ExtractOptions) (abbr : string)
    (c : Emmet.Call) :
  In c (snd (snippet_run opts abbr)) -> ~ is_scan c.
Proof.
  unfold snippet_run, stylesheet_run, markup_run.
  destruct (is_stylesheet opts).
  - destruct (Emmet.resolveConfig cssUserConfig) as [cfg|e]; simpl.
    + destruct (Emmet.parseStylesheet abbr cfg); simpl;
        intuition (subst; simpl in *; auto).
    + intuition (subst; simpl in *; auto).
  - destruct (Emmet.resolveConfig htmlUserConfig) as [cfg|e]; simpl.
    + destruct (Emmet.parseMarkup abbr cfg); simpl;
        intuition (subst; simpl in *; auto).
    + intuition (subst; simpl in *; auto).
Qed.

(** Every attempt starts with one scan, of the line it was given, and
    makes no other. *)
Lemma attempt_run_calls (linenr : Z) (line : string) (char : Z)
    (opts : Emmet.ExtractOptions) :
  exists rest,
    snd (attempt_run linenr line char opts)
      = Emmet.CallExtract line char opts :: rest /\
    forall c, In c rest -> ~ is_scan c.
Proof.
  unfold attempt_run.
  destruct (Emmet.extract line char opts) as [[found|]|e]; simpl.
  - pose proof (snippet_run_no_scan opts (Emmet.abbreviation found)) as Hns.
    destruct (snippet_run opts (Emmet.abbreviation found)) as [[text|e] calls];
      simpl in *; exists calls; auto.
  - exists []. simpl. tauto.
  - exists []. simpl. tauto.
Qed.

End Properties.

(** ** Routed attempts *)

Lemma routed_run_selected `{Emmet.Engine} (filetypes : list string)
    (doc : LSP.TextDocument) (p : LSP.TextDocumentPositionParams)
    (opts : Emmet.ExtractOptions) :
  In (LSP.languageId doc) filetypes ->
  routed_run filetypes doc p opts =
  attempt_run (LSP.line (LSP.position p)) (requested_line doc p)
              (LSP.character (LSP.position p)) opts.
Proof.
  intros Hin. unfold routed_run.
  apply indexOf_test in Hin. now rewrite Hin.
Qed.

Lemma routed_run_skipped `{Emmet.Engine} (filetypes : list string)
    (doc : LSP.TextDocument) (p : LSP.TextDocumentPositionParams)
    (opts : Emmet.ExtractOptions) :
  ~ In (LSP.languageId doc) filetypes ->
  routed_run filetypes doc p opts = (None, [], []).
Proof.
  intros Hin. unfold routed_run.
  apply indexOf_test_false in Hin. now rewrite Hin.
Qed.

(** ** The replacement range *)



(** ** Failure containment *)

(** C2.  The completion handler always returns a list and never throws.
    When the document is not held by the document manager, and more
    generally whenever the statements inside its [try] throw, the error
    is written to the console as an [ERR: ...] line and the handler
    returns the empty list. *)
Theorem onCompletion_always_returns `{Emmet.Engine}
    (p : LSP.TextDocumentPositionParams) (s : State) :
  (exists items, fst (onCompletion p s) = Returned items) /\
  (documents s !! LSP.textDocument p = None ->
   onCompletion p s =
   (Returned [], after ["ERR: failed to find document"] [] s)) /\
  (forall e s', onCompletion_try p s = (Thrown e, s') ->
   onCompletion p s = (Returned [], after ["ERR: " ++ e] [] s')).
Proof.
  split; [|split].
  - destruct (documents s !! LSP.textDocument p) as [doc|] eqn:Hdoc.
    + rewrite (onCompletion_run p s doc Hdoc). simpl. eauto.
    + rewrite (onCompletion_missing p s Hdoc). simpl. eauto.
  - apply onCompletion_missing.
  - intros e s' Htry. unfold onCompletion, try_catch. rewrite Htry.
    unfold bind, console_log, modify, ret. f_equal.
    apply state_ext; simpl; try reflexivity. now rewrite app_nil_r.
Qed.

Lemma onCompletion_always_returns_witness :
  let s := @initial_state MiniEmmet.engine in
  let p := MiniEmmet.request 0 3 in
  onCompletion p s =
    (Returned [], after ["ERR: failed to find document"] [] s) /\
  onCompletion p s =
    (Returned [], after ["ERR: " ++ "failed to find document"] [] s).
Proof.
  intros s p.
  destruct (@onCompletion_always_returns MiniEmmet.engine p s)
    as (_ & Hmissing & Hthrown).
  split.
  - apply Hmissing. reflexivity.
  - apply Hthrown. reflexivity.
Defined.

(** The expansion of a markup abbreviation throws exactly when resolving
    the configuration, parsing or serializing throws. *)
Lemma markup_run_thrown `{Emmet.Engine} (config : Emmet.UserConfig)
    (abbr e : string) :
  fst (markup_run config abbr) = Thrown e <->
  Emmet.resolveConfig config = Thrown e \/
  exists cfg, Emmet.resolveConfig config = Returned cfg /\
    (Emmet.parseMarkup abbr cfg = Thrown e \/
     exists tree, Emmet.parseMarkup abbr cfg = Returned tree /\
                  Emmet.stringifyMarkup tree cfg = Thrown e).
Proof.
  unfold markup_run.
  destruct (Emmet.resolveConfig config) as [cfg|e0]; simpl.
  - destruct (Emmet.parseMarkup abbr cfg) as [tree|e1] eqn:Hp; simpl.
    + split.
      * intros Hs. right. exists cfg. split; [reflexivity|].
        right. exists tree. rewrite Hp. auto.
      * intros [Hr|(cfg' & [= <-] & [Hq|(tree' & Hq & Hs)])];
          [discriminate| |]; rewrite Hp in Hq; [discriminate|].
        injection Hq as <-. exact Hs.
    + split.
      * intros [= ->]. right. exists cfg. split; [reflexivity|].
        left. exact Hp.
      * intros [Hr|(cfg' & [= <-] & [Hq|(tree' & Hq & Hs)])];
          [discriminate| |]; rewrite Hp in Hq; [|discriminate].
        injection Hq as ->. reflexivity.
  - split.
    + intros [= ->]. left. reflexivity.
    + intros [[= ->]|(cfg' & [=] & _)]. reflexivity.
Qed.

Lemma stylesheet_run_thrown `{Emmet.Engine} (config : Emmet.UserConfig)
    (abbr e : string) :
  fst (stylesheet_run config abbr) = Thrown e <->
  Emmet.resolveConfig config = Thrown e \/
  exists cfg, Emmet.resolveConfig config = Returned cfg /\
    (Emmet.parseStylesheet abbr cfg = Thrown e \/
     exists tree, Emmet.parseStylesheet abbr cfg = Returned tree /\
                  Emmet.stringifyStylesheet tree cfg = Thrown e).
Proof.
  unfold stylesheet_run.
  destruct (Emmet.resolveConfig config) as [cfg|e0]; simpl.
  - destruct (Emmet.parseStylesheet abbr cfg) as [tree|e1] eqn:Hp; simpl.
    + split.
      * intros Hs. right. exists cfg. split; [reflexivity|].
        right. exists tree. rewrite Hp. auto.
      * intros [Hr|(cfg' & [= <-] & [Hq|(tree' & Hq & Hs)])];
          [discriminate| |]; rewrite Hp in Hq; [discriminate|].
        injection Hq as <-. exact Hs.
    + split.
      * intros [= ->]. right. exists cfg. split; [reflexivity|].
        left. exact Hp.
      * intros [Hr|(cfg' & [= <-] & [Hq|(tree' & Hq & Hs)])];
          [discriminate| |]; rewrite Hp in Hq; [|discriminate].
        injection Hq as ->. reflexivity.
  - split.
    + intros [= ->]. left. reflexivity.
    + intros [[= ->]|(cfg' & [=] & _)]. reflexivity.
Qed.

(** C3.  Within one grammar's attempt, an error thrown by the scanner or
    by the expansion (resolving the configuration, parsing, serializing)
    is caught: the attempt returns no item and writes one [ERR: ...] line
    to the console.  When the scanner finds no abbreviation the attempt
    returns no item and writes nothing.  Within one request, an attempt
    that yields nothing, for whatever reason, leaves the other grammar's
    item in the reply. *)
Theorem attempt_failures_are_contained `{Emmet.Engine} :
  (forall (linenr : Z) (line : string) (char : Z)
          (opts : option Emmet.ExtractOptions) (s : State),
     let o := match opts with Some o => o | None => markup_opts end in
     let scan := Emmet.CallExtract line char o in
     (forall e, Emmet.extract line char o = Thrown e ->
        getCompeletionItem linenr line char opts s =
        (Returned None, after ["ERR: " ++ e] [scan] s)) /\
     (forall found e,
        Emmet.extract line char o = Returned (Some found) ->
        fst (snippet_run o (Emmet.abbreviation found)) = Thrown e ->
        getCompeletionItem linenr line char opts s =
        (Returned None,
         after ["ERR: " ++ e]
               (scan :: snd (snippet_run o (Emmet.abbreviation found))) s)) /\
     (Emmet.extract line char o = Returned None ->
        getCompeletionItem linenr line char opts s =
        (Returned None, after [] [scan] s) /\
        console (snd (getCompeletionItem linenr line char opts s))
        = console s)) /\
  (forall (p : LSP.TextDocumentPositionParams) (s : State)
          (doc : LSP.TextDocument),
     documents s !! LSP.textDocument p = Some doc ->
     In (LSP.languageId doc) (html_filetypes (globalSettings s)) ->
     In (LSP.languageId doc) (css_filetypes (globalSettings s)) ->
     let linenr := LSP.line (LSP.position p) in
     let char := LSP.character (LSP.position p) in
     let line := requested_line doc p in
     forall s1 item,
       (getCompeletionItem linenr line char None s = (Returned None, s1) ->
        fst (getCompeletionItem linenr line char (Some stylesheet_opts) s1)
          = Returned (Some item) ->
        fst (onCompletion p s) = Returned [item]) /\
       (getCompeletionItem linenr line char None s
          = (Returned (Some item), s1) ->
        fst (getCompeletionItem linenr line char (Some stylesheet_opts) s1)
          = Returned None ->
        fst (onCompletion p s) = Returned [item])).
Proof.
  split.
  - intros linenr line char opts s o scan.
    pose proof (getCompeletionItem_run linenr line char opts s) as Hrun.
    simpl in Hrun. fold o in Hrun. rewrite Hrun. unfold attempt_run.
    fold scan. split; [|split].
    + intros e ->. reflexivity.
    + intros found e -> Hthrown.
      destruct (snippet_run o (Emmet.abbreviation found)) as [r calls].
      simpl in *. subst r. reflexivity.
    + intros ->. split; [reflexivity|]. simpl. apply app_nil_r.
  - intros p s doc Hdoc Hhtml Hcss linenr char line s1 item.
    rewrite (onCompletion_run p s doc Hdoc). simpl.
    unfold routed_run.
    apply indexOf_test in Hhtml, Hcss. rewrite Hhtml, Hcss.
    fold linenr char line.
    rewrite !getCompeletionItem_run. simpl.
    split; intros [= E1 _] [= E2]; rewrite E1, E2; reflexivity.
Qed.

Lemma attempt_failures_are_contained_witness :
  let s := @initial_state MiniEmmet.engine in
  let both := {| html_filetypes := ["vue"]; css_filetypes := ["vue"] |} in
  let s_css := MiniEmmet.server_with false both
                 (MiniEmmet.document "vue" "m10-") in
  let s_html := MiniEmmet.server_with false both
                  (MiniEmmet.document "vue" "Div") in
  getCompeletionItem 0 "div" 9 None s =
    (Returned None,
     after ["ERR: RangeError: position outside of the line"]
           [Emmet.CallExtract "div" 9 markup_opts] s) /\
  fst (getCompeletionItem 0 "m10-" 4 None s) = Returned None /\
  getCompeletionItem 0 "" 0 None s =
    (Returned None, after [] [Emmet.CallExtract "" 0 markup_opts] s) /\
  fst (onCompletion (MiniEmmet.request 0 4) s_css) =
    Returned [buildCompletionItem "m10-" "m10-: ${0};" (buildRange 0 0 0)] /\
  fst (onCompletion (MiniEmmet.request 0 3) s_html) =
    Returned [buildCompletionItem "Div" "<Div>${0}</Div>" (buildRange 0 0 0)].
Proof.
  intros s both s_css s_html.
  destruct (@attempt_failures_are_contained MiniEmmet.engine)
    as [Hattempt Hrequest].
  split; [|split; [|split; [|split]]].
  - destruct (Hattempt 0 "div" 9 None s) as (Hscan & _ & _).
    apply Hscan. reflexivity.
  - destruct (Hattempt 0 "m10-" 4 None s) as (_ & Hexpand & _).
    rewrite (Hexpand
               {| Emmet.abbreviation := "m10-"; Emmet.location := 0;
                  Emmet.start := 0; Emmet.end_ := 4 |}
               "Error: unexpected character in markup abbreviation");
      reflexivity.
  - destruct (Hattempt 0 "" 0 None s) as (_ & _ & Hmiss).
    apply Hmiss. reflexivity.
  - destruct (Hrequest (MiniEmmet.request 0 4) s_css
                (MiniEmmet.document "vue" "m10-")
                eq_refl (or_introl eq_refl) (or_introl eq_refl)
                (snd (getCompeletionItem 0 "m10-" 4 None s_css))
                (buildCompletionItem "m10-" "m10-: ${0};" (buildRange 0 0 0)))
      as [Hfirst _].
    apply Hfirst; reflexivity.
  - destruct (Hrequest (MiniEmmet.request 0 3) s_html
                (MiniEmmet.document "vue" "Div")
                eq_refl (or_introl eq_refl) (or_introl eq_refl)
                (snd (getCompeletionItem 0 "Div" 3 None s_html))
                (buildCompletionItem "Div" "<Div>${0}</Div>" (buildRange 0 0 0)))
      as [_ Hsecond].
    apply Hsecond; reflexivity.
Defined.

(** ** Routing by language id *)

Lemma routed_run_scan `{Emmet.Engine} (filetypes : list string)
    (doc : LSP.TextDocument) (p : LSP.TextDocumentPositionParams)
    (opts : Emmet.ExtractOptions) (c : Emmet.Call) :
  In c (snd (routed_run filetypes doc p opts)) -> is_scan c ->
  c = Emmet.CallExtract (requested_line doc p)
        (LSP.character (LSP.position p)) opts /\
  In (LSP.languageId doc) filetypes.
Proof.
  unfold routed_run.
  destruct (negb (indexOf filetypes (LSP.languageId doc) =? -1)%Z) eqn:Ht;
    simpl; [|tauto].
  apply indexOf_test in Ht.
  destruct (attempt_run_calls (LSP.line (LSP.position p))
              (requested_line doc p) (LSP.character (LSP.position p)) opts)
    as (rest & -> & Hrest).
  intros [<-|Hin] Hscan; [auto|].
  exfalso. exact (Hrest c Hin Hscan).
Qed.

Lemma item_list_length (o : option LSP.CompletionItem) :
  (length (item_list o) <= 1)%nat.
Proof. destruct o; simpl; lia. Qed.

(** C4.  For a request on a held document, the scanner is called with the
    markup options exactly when the language id is in [html_filetypes],
    and with the stylesheet options exactly when it is in
    [css_filetypes].  The reply holds at most two items; with the language
    id in both lists and both attempts yielding an item it holds the
    markup item followed by the stylesheet item; with the language id in
    neither list it is empty, and nothing is logged and no engine function
    is called: the state is left as it was. *)
Theorem grammars_are_routed_by_language_id `{Emmet.Engine}
    (p : LSP.TextDocumentPositionParams) (s : State)
    (doc : LSP.TextDocument) :
  documents s !! LSP.textDocument p = Some doc ->
  let lang := LSP.languageId doc in
  let linenr := LSP.line (LSP.position p) in
  let char := LSP.character (LSP.position p) in
  let line := requested_line doc p in
  exists items lines calls,
    onCompletion p s = (Returned items, after lines calls s) /\
    (In (Emmet.CallExtract line char markup_opts) calls <->
     In lang (html_filetypes (globalSettings s))) /\
    (In (Emmet.CallExtract line char stylesheet_opts) calls <->
     In lang (css_filetypes (globalSettings s))) /\
    (length items <= 2)%nat /\
    (In lang (html_filetypes (globalSettings s)) ->
     In lang (css_filetypes (globalSettings s)) ->
     forall i1 i2,
       fst (fst (attempt_run linenr line char markup_opts)) = Some i1 ->
       fst (fst (attempt_run linenr line char stylesheet_opts)) = Some i2 ->
       items = [i1; i2]) /\
    (~ In lang (html_filetypes (globalSettings s)) ->
     ~ In lang (css_filetypes (globalSettings s)) ->
     items = [] /\ calls = [] /\ lines = [] /\
     onCompletion p s = (Returned [], s)).
Proof.
  intros Hdoc lang linenr char line. subst lang linenr char line.
  rewrite (onCompletion_run p s doc Hdoc).
  set (html := routed_run (html_filetypes (globalSettings s)) doc p markup_opts).
  set (css := routed_run (css_filetypes (globalSettings s)) doc p
                stylesheet_opts).
  eexists _, _, _. split; [reflexivity|].
  split; [|split; [|split; [|split]]].
  - split.
    + intros Hin. apply in_app_or in Hin. destruct Hin as [Hin|Hin].
      * apply (routed_run_scan _ _ _ _ _ Hin I).
      * destruct (routed_run_scan _ _ _ _ _ Hin I) as [Heq _].
        discriminate Heq.
    + intros Hin. apply in_or_app. left. subst html.
      rewrite (routed_run_selected _ _ _ _ Hin).
      destruct (attempt_run_calls (LSP.line (LSP.position p))
                  (requested_line doc p) (LSP.character (LSP.position p))
                  markup_opts) as (rest & -> & _).
      now left.
  - split.
    + intros Hin. apply in_app_or in Hin. destruct Hin as [Hin|Hin].
      * destruct (routed_run_scan _ _ _ _ _ Hin I) as [Heq _].
        discriminate Heq.
      * apply (routed_run_scan _ _ _ _ _ Hin I).
    + intros Hin. apply in_or_app. right. subst css.
      rewrite (routed_run_selected _ _ _ _ Hin).
      destruct (attempt_run_calls (LSP.line (LSP.position p))
                  (requested_line doc p) (LSP.character (LSP.position p))
                  stylesheet_opts) as (rest & -> & _).
      now left.
  - rewrite length_app.
    pose proof (item_list_length (fst (fst html))).
    pose proof (item_list_length (fst (fst css))). lia.
  - intros Hhtml Hcss i1 i2 E1 E2. subst html css.
    rewrite (routed_run_selected _ _ _ _ Hhtml).
    rewrite (routed_run_selected _ _ _ _ Hcss).
    rewrite E1, E2. reflexivity.
  - intros Hhtml Hcss. subst html css.
    rewrite (routed_run_skipped _ _ _ _ Hhtml).
    rewrite (routed_run_skipped _ _ _ _ Hcss). simpl.
    rewrite after_nil. auto.
Qed.

Lemma grammars_are_routed_by_language_id_witness :
  let both := {| html_filetypes := ["vue"]; css_filetypes := ["vue"] |} in
  let s_both := MiniEmmet.server_with false both
                  (MiniEmmet.document "vue" "p") in
  let s_neither := MiniEmmet.server_with false defaultSettings
                     (MiniEmmet.document "rust" "p") in
  fst (onCompletion (MiniEmmet.request 0 1) s_both) =
    Returned [buildCompletionItem "p" "<p>${0}</p>" (buildRange 0 0 0);
              buildCompletionItem "p" "p: ${0};" (buildRange 0 0 0)] /\
  onCompletion (MiniEmmet.request 0 1) s_neither = (Returned [], s_neither).
Proof.
  intros both s_both s_neither. split.
  - destruct (@grammars_are_routed_by_language_id MiniEmmet.engine
                (MiniEmmet.request 0 1) s_both
                (MiniEmmet.document "vue" "p") eq_refl)
      as (items & lines & calls & Hrun & _ & _ & _ & Hboth & _).
    rewrite Hrun. simpl. f_equal.
    apply Hboth; [left; reflexivity | left; reflexivity
                 | reflexivity | reflexivity].
  - destruct (@grammars_are_routed_by_language_id MiniEmmet.engine
                (MiniEmmet.request 0 1) s_neither
                (MiniEmmet.document "rust" "p") eq_refl)
      as (items & lines & calls & _ & _ & _ & _ & _ & Hneither).
    apply Hneither; simpl; intros [Heq|[]]; discriminate Heq.
Defined.

(** ** A line number past the end of the document *)

(** C10.  When the requested line number is at or past the number of
    lines of the document, the handler still returns: the line it works
    on is the string [undefined], each routed grammar's attempt is run on
    that string, and the scanner is called with it for each grammar the
    language id selects. *)
Theorem line_past_the_end_is_undefined `{Emmet.Engine}
    (p : LSP.TextDocumentPositionParams) (s : State)
    (doc : LSP.TextDocument) :
  documents s !! LSP.textDocument p = Some doc ->
  Z.of_nat (length (split_lines (LSP.getText doc)))
    <= LSP.line (LSP.position p) ->
  let lang := LSP.languageId doc in
  let linenr := LSP.line (LSP.position p) in
  let char := LSP.character (LSP.position p) in
  let attempt (filetypes : list string) (opts : Emmet.ExtractOptions) :=
    if negb (indexOf filetypes lang =? -1)%Z
    then attempt_run linenr "undefined" char opts
    else (None, [], []) in
  let html := attempt (html_filetypes (globalSettings s)) markup_opts in
  let css := attempt (css_filetypes (globalSettings s)) stylesheet_opts in
  requested_line doc p = "undefined" /\
  onCompletion p s =
    (Returned (item_list (fst (fst html)) ++ item_list (fst (fst css)))%list,
     after (snd (fst html) ++ snd (fst css))%list
           (snd html ++ snd css)%list s) /\
  (In lang (html_filetypes (globalSettings s)) ->
   In (Emmet.CallExtract "undefined" char markup_opts)
      (emmet_calls (snd (onCompletion p s)))) /\
  (In lang (css_filetypes (globalSettings s)) ->
   In (Emmet.CallExtract "undefined" char stylesheet_opts)
      (emmet_calls (snd (onCompletion p s)))).
Proof.
  intros Hdoc Hline lang linenr char attempt html css.
  assert (Hundef : requested_line doc p = "undefined").
  { unfold requested_line. now rewrite (index_out_of_range _ _ Hline). }
  assert (Hrun : onCompletion p s =
    (Returned (item_list (fst (fst html)) ++ item_list (fst (fst css)))%list,
     after (snd (fst html) ++ snd (fst css))%list
           (snd html ++ snd css)%list s)).
  { rewrite (onCompletion_run p s doc Hdoc). unfold routed_run.
    rewrite Hundef. reflexivity. }
  split; [exact Hundef|]. split; [exact Hrun|].
  rewrite Hrun. simpl. subst html css attempt. simpl.
  split; intros Hin; apply indexOf_test in Hin; subst lang; rewrite Hin;
    apply in_or_app; right; apply in_or_app.
  - left.
    destruct (attempt_run_calls linenr "undefined" char markup_opts)
      as (rest & -> & _).
    now left.
  - right.
    destruct (attempt_run_calls linenr "undefined" char stylesheet_opts)
      as (rest & -> & _).
    now left.
Qed.

Lemma line_past_the_end_is_undefined_witness :
  let s := MiniEmmet.server_with false defaultSettings
             (MiniEmmet.document "html" "div") in
  fst (onCompletion (MiniEmmet.request 7 4) s) =
    Returned [buildCompletionItem "unde" "<unde>${0}</unde>"
                (buildRange 7 0 0)] /\
  In (Emmet.CallExtract "undefined" 4 markup_opts)
     (emmet_calls (snd (onCompletion (MiniEmmet.request 7 4) s))).
Proof.
  intros s.
  destruct (@line_past_the_end_is_undefined MiniEmmet.engine
              (MiniEmmet.request 7 4) s (MiniEmmet.document "html" "div")
              eq_refl ltac:(simpl; lia))
    as (_ & Hrun & Hhtml & _).
  split.
  - rewrite Hrun. reflexivity.
  - apply Hhtml. left. reflexivity.
Defined.

(** ** The per-document settings cache *)

(** A workspace folder change only appends the listener's line to the
    console, once for each registered listener. *)
Lemma workspaceFoldersChanged_run `{Emmet.Engine} (s : State) :
  exists lines,
    workspaceFoldersChanged s = after lines [] s /\
    (forall l, In l lines -> l = "Workspace folder change event received.") /\
    length lines
      = length (List.filter (fun sub => match sub with
                                   | WorkspaceFolderChanges => true
                                   | ConfigurationChanges => false
                                   end) (subscriptions s)).
Proof.
  unfold workspaceFoldersChanged.
  generalize (subscriptions s) as subs. intros subs. revert s.
  induction subs as [|sub subs IH]; intros s.
  - exists []. simpl. split; [now rewrite after_nil|]. split; [tauto|].
    reflexivity.
  - cbn [fold_left]. destruct sub.
    + destruct (IH s) as (lines & Hrun & Hlines & Hlen).
      exists lines. simpl. auto.
    + destruct (IH (snd (onDidChangeWorkspaceFolders s)))
        as (lines & Hrun & Hlines & Hlen).
      exists ("Workspace folder change event received." :: lines).
      split; [|split].
      * rewrite Hrun. unfold onDidChangeWorkspaceFolders, console_log, modify.
        simpl. apply state_ext; simpl; try reflexivity.
        now rewrite <- app_assoc.
      * intros l [<-|Hin]; [reflexivity | now apply Hlines].
      * simpl. now rewrite Hlen.
Qed.

Lemma onCompletion_keeps_documentSettings `{Emmet.Engine}
    (p : LSP.TextDocumentPositionParams) (s : State) :
  documentSettings (snd (onCompletion p s)) = documentSettings s.
Proof.
  destruct (documents s !! LSP.textDocument p) as [doc|] eqn:Hdoc.
  - rewrite (onCompletion_run p s doc Hdoc). reflexivity.
  - rewrite (onCompletion_missing p s Hdoc). reflexivity.
Qed.

Lemma onInitialize_keeps_documentSettings `{Emmet.Engine}
    (params : LSP.InitializeParams) (s : State) :
  documentSettings (snd (onInitialize params s)) = documentSettings s.
Proof. reflexivity. Qed.

Lemma onInitialized_keeps_documentSettings `{Emmet.Engine} (s : State) :
  documentSettings (snd (onInitialized s)) = documentSettings s.
Proof.
  unfold onInitialized, bind, gets, modify, ret.
  destruct (hasConfigurationCapability s); simpl;
    destruct (hasWorkspaceFolderCapability s); reflexivity.
Qed.

(** An event changes the cache at [key] only by closing [key]. *)
Lemma step_documentSettings `{Emmet.Engine} (ev : Event) (s : State)
    (key : string) :
  documentSettings (step ev s) !! key =
  match ev with
  | DidClose document =>
      if decide (LSP.uri document = key) then None
      else documentSettings s !! key
  | _ => documentSettings s !! key
  end.
Proof.
  destruct ev; simpl.
  - reflexivity.
  - now rewrite onInitialized_keeps_documentSettings.
  - reflexivity.
  - apply lookup_delete.
  - now rewrite onCompletion_keeps_documentSettings.
  - reflexivity.
  - destruct (workspaceFoldersChanged_run s) as (lines & -> & _).
    reflexivity.
Qed.

(** No handler ever stores an entry: the cache of a running server is
    empty. *)
Lemma reachable_documentSettings_empty `{Emmet.Engine} (s : State) :
  reachable s -> documentSettings s = ∅.
Proof.
  induction 1 as [|ev s Hs IH].
  - reflexivity.
  - apply map_eq. intros key. rewrite step_documentSettings, IH.
    rewrite lookup_empty. destruct ev; try reflexivity.
    now destruct (decide (LSP.uri document = key)).
Qed.

Lemma run_reachable `{Emmet.Engine} (evs : list Event) (s : State) :
  reachable s -> reachable (run evs s).
Proof.
  revert s. induction evs as [|ev evs IH]; simpl; intros s Hs.
  - exact Hs.
  - apply IH. now constructor.
Qed.

Lemma run_documentSettings_empty `{Emmet.Engine} (evs : list Event) :
  documentSettings (run evs initial_state) = ∅.
Proof.
  apply reachable_documentSettings_empty, run_reachable. constructor.
Qed.

(** C5, as the code has it.  A completion request leaves the settings
    cache as it is, whether or not the client supports configuration
    requests.  Entries are created lazily by [getDocumentSettings] alone:
    with the capability and no entry for the document it stores the
    pending configuration request and returns it, with an entry it returns
    the entry, without the capability it returns the global settings; in
    the last two cases the state is unchanged.  An event removes the entry
    of a document exactly when it is the close notification of that
    document, and no event adds one.  Closing a document that has no entry
    returns normally and changes nothing. *)
Theorem settings_cache_lifecycle `{Emmet.Engine} (s : State) :
  (forall p, documentSettings (snd (onCompletion p s)) = documentSettings s) /\
  (forall resource,
     hasConfigurationCapability s = true ->
     documentSettings s !! resource = None ->
     let pending :=
       GetConfiguration {| LSP.scopeUri := resource;
                           LSP.section := "languageServerExample" |} in
     getDocumentSettings resource s =
     (Returned pending,
      set_documentSettings (<[resource := pending]> (documentSettings s)) s)) /\
  (forall resource entry,
     hasConfigurationCapability s = true ->
     documentSettings s !! resource = Some entry ->
     getDocumentSettings resource s = (Returned entry, s)) /\
  (forall resource,
     hasConfigurationCapability s = false ->
     getDocumentSettings resource s =
     (Returned (PromiseResolve (globalSettings s)), s)) /\
  (forall ev key,
     documentSettings (step ev s) !! key =
     match ev with
     | DidClose document =>
         if decide (LSP.uri document = key) then None
         else documentSettings s !! key
     | _ => documentSettings s !! key
     end) /\
  (forall document,
     documentSettings s !! LSP.uri document = None ->
     onDidClose document s = (Returned tt, s)).
Proof.
  split; [|split; [|split; [|split; [|split]]]].
  - intros p. apply onCompletion_keeps_documentSettings.
  - intros resource Hcap Hnone pending.
    unfold getDocumentSettings, bind, gets, modify, ret.
    rewrite Hcap. simpl. rewrite Hnone. reflexivity.
  - intros resource entry Hcap Hsome.
    unfold getDocumentSettings, bind, gets, modify, ret.
    rewrite Hcap. simpl. rewrite Hsome. reflexivity.
  - intros resource Hcap.
    unfold getDocumentSettings, bind, gets, modify, ret.
    rewrite Hcap. reflexivity.
  - intros ev key. apply step_documentSettings.
  - intros document Hnone. unfold onDidClose, modify. f_equal.
    apply state_ext; simpl; try reflexivity.
    now apply delete_id.
Qed.

Lemma settings_cache_lifecycle_witness :
  let doc := MiniEmmet.document "html" "div" in
  let s := MiniEmmet.server_with true defaultSettings doc in
  let s_off := MiniEmmet.server_with false defaultSettings doc in
  let pending : Thenable Settings :=
    GetConfiguration {| LSP.scopeUri := "file:///demo";
                        LSP.section := "languageServerExample" |} in
  let s_cached :=
    set_documentSettings (<["file:///demo" := pending]> (documentSettings s)) s in
  getDocumentSettings "file:///demo" s = (Returned pending, s_cached) /\
  getDocumentSettings "file:///demo" s_cached = (Returned pending, s_cached) /\
  getDocumentSettings "file:///demo" s_off =
    (Returned (PromiseResolve defaultSettings), s_off) /\
  onDidClose doc s = (Returned tt, s).
Proof.
  intros doc s s_off pending s_cached.
  split; [|split; [|split]].
  - destruct (@settings_cache_lifecycle MiniEmmet.engine s)
      as (_ & Hcreate & _).
    apply Hcreate; reflexivity.
  - destruct (@settings_cache_lifecycle MiniEmmet.engine s_cached)
      as (_ & _ & Hcached & _).
    apply Hcached; [reflexivity | vm_compute; reflexivity].
  - destruct (@settings_cache_lifecycle MiniEmmet.engine s_off)
      as (_ & _ & _ & Hoff & _).
    apply Hoff. reflexivity.
  - destruct (@settings_cache_lifecycle MiniEmmet.engine s)
      as (_ & _ & _ & _ & _ & Hclose).
    apply Hclose. reflexivity.
Defined.

(** C5 as stated fails: the first completion request for an open document,
    on a server whose client supports configuration requests, is answered
    with an item and leaves the document without a cache entry. *)
Lemma completion_request_creates_no_cache_entry :
  let s := MiniEmmet.server_with true defaultSettings
             (MiniEmmet.document "html" "div") in
  let p := MiniEmmet.request 0 3 in
  hasConfigurationCapability s = true /\
  documentSettings s !! LSP.textDocument p = None /\
  fst (onCompletion p s) =
    Returned [buildCompletionItem "div" "<div>${0}</div>" (buildRange 0 0 0)] /\
  ~ is_Some (documentSettings (snd (onCompletion p s)) !! LSP.textDocument p).
Proof.
  intros s p. split; [reflexivity|]. split; [reflexivity|].
  split; [reflexivity|].
  rewrite onCompletion_keeps_documentSettings.
  intros [entry Hentry]. discriminate Hentry.
Qed.

(** ** Configuration changes *)

(** C6.  A configuration change notification returns normally, makes the
    pushed settings the global settings, and leaves the per-document
    settings cache, like every other part of the state, as it was. *)
Theorem configuration_change_replaces_global_settings `{Emmet.Engine}
    (settings : Settings) (s : State) :
  fst (onDidChangeConfiguration settings s) = Returned tt /\
  globalSettings (snd (onDidChangeConfiguration settings s)) = settings /\
  documentSettings (snd (onDidChangeConfiguration settings s))
    = documentSettings s /\
  snd (onDidChangeConfiguration settings s) = set_globalSettings settings s /\
  (forall key,
     documentSettings (step (DidChangeConfiguration settings) s) !! key
     = documentSettings s !! key).
Proof.
  repeat split.
Qed.

Example configuration_change_keeps_cached_entry :
  let pending : Thenable Settings :=
    GetConfiguration {| LSP.scopeUri := "file:///demo";
                        LSP.section := "languageServerExample" |} in
  let s := set_documentSettings {[ "file:///demo" := pending ]}
             (@initial_state MiniEmmet.engine) in
  let pushed := {| html_filetypes := ["html"; "vue"];
                   css_filetypes := ["scss"] |} in
  let s' := step (DidChangeConfiguration pushed) s in
  globalSettings s' = pushed /\
  documentSettings s' !! "file:///demo" = Some pending.
Proof. split; vm_compute; reflexivity. Qed.

(** ** The snippet text *)

Example outputField_first_stop : outputField 1 "" = "${1}".
Proof. reflexivity. Qed.

Example outputField_final_stop : outputField 0 "" = "${0}".
Proof. reflexivity. Qed.

Example outputField_with_default : outputField 12 "name" = "${12:name}".
Proof. reflexivity. Qed.

Lemma truthy_string_nonempty (d : string) :
  d <> "" -> truthy_string d = true.
Proof. destruct d; [congruence | reflexivity]. Qed.

(** C7.  The [output.field] function of the server renders field [N]
    without placeholder text as [${N}] and field [N] with placeholder
    text [d] as [${N:d}], for every index [N] that JavaScript prints in
    full.  It is the [output.field] option of the configuration of both
    grammars.  Each snippet function first resolves that configuration;
    when this throws, it throws the same error; otherwise it parses the
    abbreviation with the resolved configuration; when this throws, it
    throws the same error; otherwise it serializes the parsed tree with
    the same resolved configuration and returns or throws what the
    serializer returns or throws.  It makes no other engine call. *)
Theorem field_hook_renders_tab_stops `{Emmet.Engine} :
  (forall N, is_safe_integer N ->
     outputField N "" = "${" ++ number_to_string N ++ "}") /\
  (forall N d, is_safe_integer N -> d <> "" ->
     outputField N d = "${" ++ number_to_string N ++ ":" ++ d ++ "}") /\
  Emmet.output_field htmlUserConfig = Some outputField /\
  Emmet.output_field cssUserConfig = Some outputField /\
  (forall abbr s,
     (forall e,
        Emmet.resolveConfig htmlUserConfig = Thrown e ->
        getHtmlSnippet abbr s =
        (Thrown e, after [] [Emmet.CallResolveConfig htmlUserConfig] s)) /\
     (forall cfg e,
        Emmet.resolveConfig htmlUserConfig = Returned cfg ->
        Emmet.parseMarkup abbr cfg = Thrown e ->
        getHtmlSnippet abbr s =
        (Thrown e, after [] [Emmet.CallResolveConfig htmlUserConfig;
                             Emmet.CallParseMarkup abbr cfg] s)) /\
     (forall cfg tree,
        Emmet.resolveConfig htmlUserConfig = Returned cfg ->
        Emmet.parseMarkup abbr cfg = Returned tree ->
        getHtmlSnippet abbr s =
        (Emmet.stringifyMarkup tree cfg,
         after [] [Emmet.CallResolveConfig htmlUserConfig;
                   Emmet.CallParseMarkup abbr cfg;
                   Emmet.CallStringifyMarkup tree cfg] s))) /\
  (forall abbr s,
     (forall e,
        Emmet.resolveConfig cssUserConfig = Thrown e ->
        getCssSnippet abbr s =
        (Thrown e, after [] [Emmet.CallResolveConfig cssUserConfig] s)) /\
     (forall cfg e,
        Emmet.resolveConfig cssUserConfig = Returned cfg ->
        Emmet.parseStylesheet abbr cfg = Thrown e ->
        getCssSnippet abbr s =
        (Thrown e, after [] [Emmet.CallResolveConfig cssUserConfig;
                             Emmet.CallParseStylesheet abbr cfg] s)) /\
     (forall cfg tree,
        Emmet.resolveConfig cssUserConfig = Returned cfg ->
        Emmet.parseStylesheet abbr cfg = Returned tree ->
        getCssSnippet abbr s =
        (Emmet.stringifyStylesheet tree cfg,
         after [] [Emmet.CallResolveConfig cssUserConfig;
                   Emmet.CallParseStylesheet abbr cfg;
                   Emmet.CallStringifyStylesheet tree cfg] s))).
Proof.
  split; [reflexivity|]. split.
  { intros N d _ Hd. unfold outputField.
    now rewrite (truthy_string_nonempty d Hd). }
  split; [reflexivity|]. split; [reflexivity|]. split.
  - intros abbr s. rewrite getHtmlSnippet_run. unfold markup_run.
    split; [|split].
    + intros e ->. reflexivity.
    + intros cfg e -> ->. reflexivity.
    + intros cfg tree -> ->. reflexivity.
  - intros abbr s. rewrite getCssSnippet_run. unfold stylesheet_run.
    split; [|split].
    + intros e ->. reflexivity.
    + intros cfg e -> ->. reflexivity.
    + intros cfg tree -> ->. reflexivity.
Qed.

Lemma field_hook_renders_tab_stops_witness :
  let s := @initial_state MiniEmmet.engine in
  let s0 := @initial_state MiniEmmet.unconfigurable in
  let failed : string := "TypeError: cannot resolve the configuration" in
  outputField 3 "" = "${3}" /\
  outputField 2 "name" = "${2:name}" /\
  fst (@getHtmlSnippet MiniEmmet.unconfigurable "div" s0) = Thrown failed /\
  fst (@getHtmlSnippet MiniEmmet.engine "m10-" s)
    = Thrown "Error: unexpected character in markup abbreviation" /\
  fst (@getHtmlSnippet MiniEmmet.engine "div" s)
    = Returned "<div>${0}</div>" /\
  fst (@getCssSnippet MiniEmmet.unconfigurable "m10-" s0) = Thrown failed /\
  fst (@getCssSnippet MiniEmmet.engine "Div" s)
    = Thrown "Error: unexpected character in stylesheet abbreviation" /\
  fst (@getCssSnippet MiniEmmet.engine "m10-" s) = Returned "m10-: ${0};".
Proof.
  intros s s0 failed.
  destruct (@field_hook_renders_tab_stops MiniEmmet.engine)
    as (Hbare & Hdefault & _ & _ & Hhtml & Hcss).
  destruct (@field_hook_renders_tab_stops MiniEmmet.unconfigurable)
    as (_ & _ & _ & _ & Hhtml0 & Hcss0).
  split; [|split; [|split; [|split; [|split; [|split; [|split]]]]]].
  - apply (Hbare 3). unfold is_safe_integer, MAX_SAFE_INTEGER. split; lia.
  - apply (Hdefault 2 "name");
      [unfold is_safe_integer, MAX_SAFE_INTEGER; split; lia | discriminate].
  - destruct (Hhtml0 "div" s0) as (Hthrow & _ & _).
    rewrite (Hthrow failed eq_refl). reflexivity.
  - destruct (Hhtml "m10-" s) as (_ & Hparse & _).
    rewrite (Hparse htmlUserConfig
               "Error: unexpected character in markup abbreviation"
               eq_refl eq_refl).
    reflexivity.
  - destruct (Hhtml "div" s) as (_ & _ & Hprint).
    rewrite (Hprint htmlUserConfig "div" eq_refl eq_refl). reflexivity.
  - destruct (Hcss0 "m10-" s0) as (Hthrow & _ & _).
    rewrite (Hthrow failed eq_refl). reflexivity.
  - destruct (Hcss "Div" s) as (_ & Hparse & _).
    rewrite (Hparse cssUserConfig
               "Error: unexpected character in stylesheet abbreviation"
               eq_refl eq_refl).
    reflexivity.
  - destruct (Hcss "m10-" s) as (_ & _ & Hprint).
    rewrite (Hprint cssUserConfig "m10-" eq_refl eq_refl). reflexivity.
Defined.

(** ** The assembled item *)

(** C8, as the code has it.  An item returned by a grammar's attempt has
    the extracted abbreviation as its label and as its detail; its
    documentation, the new text of its edit and the text kept in its data
    are all the one snippet text, the expansion rendered with the
    [output.field] function of the server; it is tagged with the snippet
    insert text format and the snippet kind; its edit and its data carry
    the range built from the line number and the abbreviation's start. *)
Theorem completion_item_fields `{Emmet.Engine}
    (linenr : Z) (line : string) (char : Z)
    (opts : option Emmet.ExtractOptions) (s : State)
    (item : LSP.CompletionItem) :
  fst (getCompeletionItem linenr line char opts s) = Returned (Some item) ->
  let o := match opts with Some o => o | None => markup_opts end in
  exists found text,
    Emmet.extract line char o = Returned (Some found) /\
    fst (snippet_run o (Emmet.abbreviation found)) = Returned text /\
    LSP.label item = Emmet.abbreviation found /\
    LSP.detail item = Emmet.abbreviation found /\
    LSP.documentation item = text /\
    LSP.newText (LSP.textEdit item) = text /\
    LSP.documentation item = LSP.newText (LSP.textEdit item) /\
    LSP.insertTextFormat item = LSP.Snippet /\
    LSP.kind item = LSP.SnippetKind /\
    LSP.range (LSP.textEdit item)
      = buildRange linenr (Emmet.start found) (Emmet.start found) /\
    LSP.data item =
      {| LSP.data_range :=
           buildRange linenr (Emmet.start found) (Emmet.start found);
         LSP.textResult := text |}.
Proof.
  intros Hitem o.
  pose proof (getCompeletionItem_run linenr line char opts s) as Hrun.
  simpl in Hrun. fold o in Hrun. rewrite Hrun in Hitem. simpl in Hitem.
  injection Hitem as Hitem.
  destruct (attempt_run_item _ _ _ _ _ Hitem) as (found & text & Hx & Ht & ->).
  exists found, text. simpl. repeat split; assumption.
Qed.

Lemma completion_item_fields_witness :
  let s := @initial_state MiniEmmet.engine in
  exists found text,
    MiniEmmet.extract "ul li" 5 markup_opts = Returned (Some found) /\
    Emmet.abbreviation found = "li" /\
    text = "<li>${0}</li>".
Proof.
  intros s.
  destruct (@completion_item_fields MiniEmmet.engine 3 "ul li" 5 None s
              (buildCompletionItem "li" "<li>${0}</li>" (buildRange 3 3 3))
              eq_refl)
    as (found & text & Hx & _ & Hlabel & _ & Hdoc & _).
  exists found, text. split; [exact Hx|]. split.
  - symmetry. exact Hlabel.
  - symmetry. exact Hdoc.
Defined.

(** C8 as stated fails: for the abbreviation [div] the documentation of
    the item is the snippet text, tab stop included, the very text the
    edit inserts, and not the preview the engine renders when the
    [output.field] option is left unset. *)
Lemma documentation_is_not_the_preview :
  let s := @initial_state MiniEmmet.engine in
  let item := buildCompletionItem "div" "<div>${0}</div>" (buildRange 0 0 0) in
  fst (getCompeletionItem 0 "div" 3 None s) = Returned (Some item) /\
  fst (@spec_preview_run MiniEmmet.engine markup_opts "div")
    = Returned "<div></div>" /\
  LSP.documentation item = LSP.newText (LSP.textEdit item) /\
  Returned (LSP.documentation item)
    <> fst (@spec_preview_run MiniEmmet.engine markup_opts "div").
Proof.
  intros s item. split; [reflexivity|]. split; [reflexivity|].
  split; [reflexivity|]. discriminate.
Qed.

(** ** The advertised trigger characters *)

Lemma triggerCharacters_existsb (t : string) :
  In t triggerCharacters <->
  existsb (String.eqb t) triggerCharacters = true.
Proof.
  rewrite existsb_exists. split.
  - intros Hin. exists t. split; [exact Hin | apply String.eqb_refl].
  - intros (u & Hin & Heq). apply String.eqb_eq in Heq. now subst u.
Qed.

Lemma lower_or_digit_is_trigger (c : ascii) :
  Chars.is_lower c || Chars.is_digit c = true ->
  In (String c "") triggerCharacters.
Proof.
  intros Hc. apply triggerCharacters_existsb.
  destruct c as [[] [] [] [] [] [] [] []];
    first [discriminate Hc | reflexivity].
Qed.

Lemma trigger_is_punctuation_or_lower_or_digit (t : string) :
  In t triggerCharacters ->
  In t Chars.structural_punctuation \/
  exists c, t = String c "" /\ Chars.is_lower c || Chars.is_digit c = true.
Proof.
  intros Hin. unfold triggerCharacters in Hin. simpl in Hin.
  repeat (destruct Hin as [<-|Hin];
          [first [ left; simpl; tauto
                 | right; eexists; split; reflexivity ] |]).
  destruct Hin.
Qed.

(** C9, as the code has it.  The initialization result advertises
    completion with [resolveProvider] set, and its trigger characters are
    exactly the eight punctuation characters, the lowercase letters [a]
    to [z] and the digits [0] to [9]. *)
Theorem trigger_characters_advertised `{Emmet.Engine}
    (params : LSP.InitializeParams) (s : State) :
  exists result,
    fst (onInitialize params s) = Returned result /\
    let provider := LSP.completionProvider (LSP.capabilities result) in
    LSP.resolveProvider provider = true /\
    forall t,
      In t (LSP.triggerCharacters provider) <->
      In t Chars.structural_punctuation \/
      exists c, t = String c "" /\
                Chars.is_lower c || Chars.is_digit c = true.
Proof.
  eexists. split; [reflexivity|]. simpl. split; [reflexivity|].
  intros t. split.
  - apply trigger_is_punctuation_or_lower_or_digit.
  - intros [Hp|(c & -> & Hc)].
    + apply triggerCharacters_existsb. simpl in Hp.
      repeat (destruct Hp as [<-|Hp]; [reflexivity|]). destruct Hp.
    + now apply lower_or_digit_is_trigger.
Qed.

(** C9 as stated fails: the uppercase letter [A] is alphanumeric and is
    not among the advertised trigger characters. *)
Lemma uppercase_letter_is_no_trigger :
  let params :=
    {| LSP.params_capabilities :=
         {| LSP.client_workspace := None; LSP.client_textDocument := None |} |} in
  let s := @initial_state MiniEmmet.engine in
  Chars.is_alphanumeric "A"%char = true /\
  exists result,
    fst (onInitialize params s) = Returned result /\
    ~ In "A" (LSP.triggerCharacters
                (LSP.completionProvider (LSP.capabilities result))).
Proof.
  intros params s. split; [reflexivity|].
  eexists. split; [reflexivity|]. simpl.
  intros Hin. apply triggerCharacters_existsb in Hin. discriminate Hin.
Qed.

(** * Further properties *)

(** ** Splitting the document into lines *)

Lemma push_front_split (c : ascii) (s : string) :
  exists p ps, split_lines s = p :: ps /\
               push_front c (split_lines s) = String c p :: ps.
Proof.
  pose proof (split_lines_length s) as Hlen.
  destruct (split_lines s) as [|p ps]; simpl in *; [lia|].
  exists p, ps. auto.
Qed.

(** X1.  No piece of a split text contains a line feed; in particular the
    line a request is answered on, whether a line of the document or the
    string [undefined], contains none. *)
Theorem lines_contain_no_line_feed :
  (forall s l, In l (split_lines s) -> free_of LF l) /\
  (forall doc p, free_of LF (requested_line doc p)).
Proof.
  assert (Hsplit : forall s l, In l (split_lines s) -> free_of LF l).
  { induction s as [|c rest IH]; intros l Hin.
    - destruct Hin as [<-|[]]. intros [].
    - simpl in Hin. destruct (Ascii.eqb_spec c LF) as [->|Hc].
      + destruct Hin as [<-|Hin]; [intros [] | now apply IH].
      + assert (Hpush : In l (push_front c (split_lines rest)) ->
                        free_of LF l).
        { destruct (push_front_split c rest) as (q & qs & Hs & ->).
          intros [<-|Hin'].
          - intros [Heq|Hq]; [congruence|].
            apply (IH q); [rewrite Hs; now left | exact Hq].
          - apply IH. rewrite Hs. now right. }
        destruct rest as [|c' rest']; [exact (Hpush Hin)|].
        destruct (Ascii.eqb c CR && Ascii.eqb c' LF);
          [now apply IH | exact (Hpush Hin)]. }
  split; [exact Hsplit|].
  intros doc p. unfold requested_line, index.
  destruct (LSP.line (LSP.position p) <? 0)%Z.
  - vm_compute. intuition discriminate.
  - destruct (split_lines (LSP.getText doc)
                !! Z.to_nat (LSP.line (LSP.position p))) as [l|] eqn:Hl.
    + apply (Hsplit (LSP.getText doc)). simpl.
      apply list_elem_of_In. eapply list_elem_of_lookup_2. exact Hl.
    + vm_compute. intuition discriminate.
Qed.

(** X2.  A text splits into one piece more than it has line feeds, so a
    line number is within the document exactly when it is at most the
    number of line feeds. *)
Theorem line_count_is_line_feeds_plus_one (s : string) :
  length (split_lines s) = S (count_LF s).
Proof.
  induction s as [|c rest IH]; [reflexivity|].
  simpl. destruct (Ascii.eqb_spec c LF) as [->|Hc].
  - simpl. now rewrite IH.
  - assert (Hpush : length (push_front c (split_lines rest))
                    = S (count_LF rest)).
    { destruct (push_front_split c rest) as (q & qs & Hs & ->).
      rewrite <- IH, Hs. reflexivity. }
    destruct rest as [|c' rest']; [exact Hpush|].
    destruct (Ascii.eqb c CR && Ascii.eqb c' LF); [exact IH | exact Hpush].
Qed.

Lemma concat_push_front (sep : string) (c : ascii) (p : string)
    (ps : list string) :
  String.concat sep (String c p :: ps) = String c (String.concat sep (p :: ps)).
Proof. destruct ps; reflexivity. Qed.

(** X3.  For a text without carriage returns, joining the pieces of the
    split with line feeds gives the text back: the lines handed to the
    scanner are the document's own, character for character. *)
Theorem split_lines_join (s : string) :
  free_of CR s ->
  String.concat (String LF "") (split_lines s) = s.
Proof.
  induction s as [|c rest IH]; intros Hfree; [reflexivity|].
  assert (Hrest : free_of CR rest).
  { intros Hin. apply Hfree. simpl. now right. }
  assert (Hc : c <> CR).
  { intros ->. apply Hfree. simpl. now left. }
  specialize (IH Hrest). simpl.
  destruct (Ascii.eqb_spec c LF) as [->|Hlf].
  - destruct (push_front_split LF rest) as (q & qs & Hs & _).
    rewrite Hs in *.
    change (String.concat (String LF "") ("" :: q :: qs))
      with (String LF (String.concat (String LF "") (q :: qs))).
    now rewrite IH.
  - assert (Hpush : String.concat (String LF "")
                      (push_front c (split_lines rest)) = String c rest).
    { destruct (push_front_split c rest) as (q & qs & Hs & ->).
      rewrite concat_push_front, <- Hs, IH. reflexivity. }
    destruct rest as [|c' rest']; [exact Hpush|].
    destruct (Ascii.eqb_spec c CR) as [->|_]; [congruence|].
    simpl. exact Hpush.
Qed.

Lemma split_lines_join_witness :
  String.concat (String LF "")
    (split_lines ("ul" ++ String LF ("  li" ++ String LF "")))
  = "ul" ++ String LF ("  li" ++ String LF "").
Proof.
  apply split_lines_join. unfold free_of. simpl.
  intuition discriminate.
Defined.

Lemma lines_contain_no_line_feed_witness :
  free_of LF "  li".
Proof.
  apply (proj1 lines_contain_no_line_feed
           ("ul" ++ String LF ("  li" ++ String LF "")) "  li").
  simpl. right. left. reflexivity.
Defined.

(** ** One grammar's attempt *)

(** X4.  When the scanner finds an abbreviation and the configuration
    resolves, the abbreviation parses and the tree serializes, the attempt
    returns the item built from the abbreviation, the serialized text and
    the abbreviation's start; it writes nothing to the console and calls
    the engine four times, in the order scan, resolve, parse, serialize,
    with the extracted abbreviation as the text parsed.  This holds for
    the markup functions when the options do not select the stylesheet
    grammar and for the stylesheet functions when they do. *)
Theorem successful_attempt_returns_item `{Emmet.Engine}
    (linenr : Z) (line : string) (char : Z)
    (opts : option Emmet.ExtractOptions) (s : State)
    (found : Emmet.ExtractedAbbreviation) (cfg : Emmet.Config)
    (text : string) :
  let o := match opts with Some o => o | None => markup_opts end in
  let abbr := Emmet.abbreviation found in
  let item := buildCompletionItem abbr text
                (buildRange linenr (Emmet.start found) (Emmet.start found)) in
  Emmet.extract line char o = Returned (Some found) ->
  (forall tree,
     is_stylesheet o = false ->
     Emmet.resolveConfig htmlUserConfig = Returned cfg ->
     Emmet.parseMarkup abbr cfg = Returned tree ->
     Emmet.stringifyMarkup tree cfg = Returned text ->
     getCompeletionItem linenr line char opts s =
     (Returned (Some item),
      after [] [Emmet.CallExtract line char o;
                Emmet.CallResolveConfig htmlUserConfig;
                Emmet.CallParseMarkup abbr cfg;
                Emmet.CallStringifyMarkup tree cfg] s)) /\
  (forall tree,
     is_stylesheet o = true ->
     Emmet.resolveConfig cssUserConfig = Returned cfg ->
     Emmet.parseStylesheet abbr cfg = Returned tree ->
     Emmet.stringifyStylesheet tree cfg = Returned text ->
     getCompeletionItem linenr line char opts s =
     (Returned (Some item),
      after [] [Emmet.CallExtract line char o;
                Emmet.CallResolveConfig cssUserConfig;
                Emmet.CallParseStylesheet abbr cfg;
                Emmet.CallStringifyStylesheet tree cfg] s)).
Proof.
  intros o abbr item Hx.
  pose proof (getCompeletionItem_run linenr line char opts s) as Hrun.
  simpl in Hrun. fold o in Hrun. rewrite Hrun. clear Hrun.
  unfold attempt_run. rewrite Hx. fold abbr. unfold snippet_run.
  split; intros tree Hs Hr Hp Hz; rewrite Hs.
  - unfold markup_run. rewrite Hr, Hp, Hz. reflexivity.
  - unfold stylesheet_run. rewrite Hr, Hp, Hz. reflexivity.
Qed.

Lemma successful_attempt_returns_item_witness :
  let s := @initial_state MiniEmmet.engine in
  fst (getCompeletionItem 4 "  div" 5 None s) =
    Returned (Some (buildCompletionItem "div" "<div>${0}</div>"
                      (buildRange 4 2 2))) /\
  fst (getCompeletionItem 4 "  m10-" 6 (Some stylesheet_opts) s) =
    Returned (Some (buildCompletionItem "m10-" "m10-: ${0};"
                      (buildRange 4 2 2))).
Proof.
  intros s. split.
  - destruct (@successful_attempt_returns_item MiniEmmet.engine
                4 "  div" 5 None s
                {| Emmet.abbreviation := "div"; Emmet.location := 2;
                   Emmet.start := 2; Emmet.end_ := 5 |}
                htmlUserConfig "<div>${0}</div>" eq_refl) as [Hmarkup _].
    rewrite (Hmarkup "div" eq_refl eq_refl eq_refl eq_refl). reflexivity.
  - destruct (@successful_attempt_returns_item MiniEmmet.engine
                4 "  m10-" 6 (Some stylesheet_opts) s
                {| Emmet.abbreviation := "m10-"; Emmet.location := 2;
                   Emmet.start := 2; Emmet.end_ := 6 |}
                cssUserConfig "m10-: ${0};" eq_refl) as [_ Hcss].
    rewrite (Hcss "m10-" eq_refl eq_refl eq_refl eq_refl). reflexivity.
Defined.

Lemma snippet_run_calls `{Emmet.Engine} (line : string) (char : Z)
    (opts : Emmet.ExtractOptions) (abbr : string) :
  (length (snd (snippet_run opts abbr)) <= 3)%nat /\
  forall c, In c (snd (snippet_run opts abbr)) ->
            call_of_attempt line char opts c.
Proof.
  unfold snippet_run, stylesheet_run, markup_run.
  destruct (is_stylesheet opts) eqn:Hs.
  - destruct (Emmet.resolveConfig cssUserConfig) as [cfg|e]; simpl.
    + destruct (Emmet.parseStylesheet abbr cfg); simpl;
        (split; [lia|]); intros c Hin;
        repeat (destruct Hin as [<-|Hin]; [simpl; now rewrite ?Hs|]);
        destruct Hin.
    + split; [lia|]. intros c [<-|[]]. simpl. now rewrite Hs.
  - destruct (Emmet.resolveConfig htmlUserConfig) as [cfg|e]; simpl.
    + destruct (Emmet.parseMarkup abbr cfg); simpl;
        (split; [lia|]); intros c Hin;
        repeat (destruct Hin as [<-|Hin]; [simpl; now rewrite ?Hs|]);
        destruct Hin.
    + split; [lia|]. intros c [<-|[]]. simpl. now rewrite Hs.
Qed.

Lemma attempt_run_shape `{Emmet.Engine} (linenr : Z) (line : string)
    (char : Z) (opts : Emmet.ExtractOptions) :
  let r := attempt_run linenr line char opts in
  (length (snd r) <= 4)%nat /\
  (forall c, In c (snd r) -> call_of_attempt line char opts c) /\
  (length (item_list (fst (fst r))) + length (snd (fst r)) <= 1)%nat /\
  (forall l, In l (snd (fst r)) -> is_error_line l).
Proof.
  unfold attempt_run.
  destruct (Emmet.extract line char opts) as [[found|]|e]; simpl.
  - pose proof (snippet_run_calls line char opts (Emmet.abbreviation found))
      as [Hlen Hcalls].
    destruct (snippet_run opts (Emmet.abbreviation found))
      as [[text|e] calls]; simpl in *.
    + split; [lia|]. split; [|split; [lia|tauto]].
      intros c [<-|Hin]; [simpl; auto | auto].
    + split; [lia|]. split; [|split; [lia|]].
      * intros c [<-|Hin]; [simpl; auto | auto].
      * intros l [<-|[]]. now exists e.
  - split; [lia|]. split; [|split; [lia|tauto]].
    intros c [<-|[]]. simpl. auto.
  - split; [lia|]. split; [|split; [lia|]].
    + intros c [<-|[]]. simpl. auto.
    + intros l [<-|[]]. now exists e.
Qed.

(** X5.  Whatever the engine does, one attempt makes at most four engine
    calls, and every call belongs to the grammar its options select: the
    scan is of the given line at the given position with those options;
    with the type [stylesheet] only the stylesheet configuration, parser
    and serializer are used, and with any other type, or none, only the
    markup ones.  The attempt writes at most one console line, an
    [ERR: ...] line, and none when it returns an item. *)
Theorem attempt_stays_within_its_grammar `{Emmet.Engine}
    (linenr : Z) (line : string) (char : Z)
    (opts : option Emmet.ExtractOptions) (s : State) :
  let o := match opts with Some o => o | None => markup_opts end in
  exists item lines calls,
    getCompeletionItem linenr line char opts s
      = (Returned item, after lines calls s) /\
    (length calls <= 4)%nat /\
    (forall c, In c calls -> call_of_attempt line char o c) /\
    (length (item_list item) + length lines <= 1)%nat /\
    (forall l, In l lines -> is_error_line l).
Proof.
  intros o.
  pose proof (getCompeletionItem_run linenr line char opts s) as Hrun.
  simpl in Hrun. fold o in Hrun.
  eexists _, _, _. split; [exact Hrun|].
  apply attempt_run_shape.
Qed.

(** ** One completion request *)

Lemma routed_run_shape `{Emmet.Engine} (filetypes : list string)
    (doc : LSP.TextDocument) (p : LSP.TextDocumentPositionParams)
    (opts : Emmet.ExtractOptions) :
  let r := routed_run filetypes doc p opts in
  (length (snd r) <= 4)%nat /\
  (length (item_list (fst (fst r))) + length (snd (fst r)) <= 1)%nat /\
  (forall l, In l (snd (fst r)) -> is_error_line l).
Proof.
  unfold routed_run.
  destruct (negb (indexOf filetypes (LSP.languageId doc) =? -1)%Z).
  - pose proof (attempt_run_shape (LSP.line (LSP.position p))
                  (requested_line doc p) (LSP.character (LSP.position p))
                  opts) as (Hc & _ & Hi & He).
    auto.
  - simpl. split; [lia|]. split; [lia|tauto].
Qed.

(** X6.  A completion request changes nothing but the console and the
    record of engine calls, and only by appending to them: it makes at
    most eight engine calls and writes at most two lines, each an
    [ERR: ...] line.  Items and error lines together number at most two:
    every error line stands for an item that was not produced. *)
Theorem completion_request_effects `{Emmet.Engine}
    (p : LSP.TextDocumentPositionParams) (s : State) :
  exists items lines calls,
    onCompletion p s = (Returned items, after lines calls s) /\
    (length calls <= 8)%nat /\
    (length items + length lines <= 2)%nat /\
    (forall l, In l lines -> is_error_line l).
Proof.
  destruct (documents s !! LSP.textDocument p) as [doc|] eqn:Hdoc.
  - rewrite (onCompletion_run p s doc Hdoc).
    pose proof (routed_run_shape (html_filetypes (globalSettings s)) doc p
                  markup_opts) as (Hc1 & Hi1 & He1).
    pose proof (routed_run_shape (css_filetypes (globalSettings s)) doc p
                  stylesheet_opts) as (Hc2 & Hi2 & He2).
    eexists _, _, _. split; [reflexivity|].
    rewrite !length_app. split; [lia|]. split; [lia|].
    intros l Hin. apply in_app_or in Hin. destruct Hin; auto.
  - rewrite (onCompletion_missing p s Hdoc).
    eexists _, _, _. split; [reflexivity|]. simpl.
    split; [lia|]. split; [lia|].
    intros l [<-|[]]. now exists "failed to find document".
Qed.

Lemma indexOf_test_membership (xs ys : list string) (x : string) :
  (In x xs <-> In x ys) ->
  negb (indexOf xs x =? -1)%Z = negb (indexOf ys x =? -1)%Z.
Proof.
  intros Hiff.
  destruct (negb (indexOf xs x =? -1)%Z) eqn:Hx;
    destruct (negb (indexOf ys x =? -1)%Z) eqn:Hy; try reflexivity.
  - apply indexOf_test in Hx. apply indexOf_test_false in Hy. tauto.
  - apply indexOf_test_false in Hx. apply indexOf_test in Hy. tauto.
Qed.

(** X7.  The file type lists matter only through membership of the
    document's language id: two settings whose lists agree on whether they
    contain it (whatever their order, length or repetitions) give the same
    reply, console lines and engine calls. *)
Theorem routing_depends_on_membership_only `{Emmet.Engine}
    (p : LSP.TextDocumentPositionParams) (s : State)
    (doc : LSP.TextDocument) (g1 g2 : Settings) :
  documents s !! LSP.textDocument p = Some doc ->
  (In (LSP.languageId doc) (html_filetypes g1) <->
   In (LSP.languageId doc) (html_filetypes g2)) ->
  (In (LSP.languageId doc) (css_filetypes g1) <->
   In (LSP.languageId doc) (css_filetypes g2)) ->
  fst (onCompletion p (set_globalSettings g1 s))
    = fst (onCompletion p (set_globalSettings g2 s)) /\
  console (snd (onCompletion p (set_globalSettings g1 s)))
    = console (snd (onCompletion p (set_globalSettings g2 s))) /\
  emmet_calls (snd (onCompletion p (set_globalSettings g1 s)))
    = emmet_calls (snd (onCompletion p (set_globalSettings g2 s))).
Proof.
  intros Hdoc Hhtml Hcss.
  rewrite (onCompletion_run p (set_globalSettings g1 s) doc Hdoc).
  rewrite (onCompletion_run p (set_globalSettings g2 s) doc Hdoc).
  simpl. unfold routed_run.
  rewrite (indexOf_test_membership _ _ _ Hhtml).
  rewrite (indexOf_test_membership _ _ _ Hcss).
  auto.
Qed.

Lemma routing_depends_on_membership_only_witness :
  let doc := MiniEmmet.document "vue" "p" in
  let s := MiniEmmet.server_with false defaultSettings doc in
  let g1 := {| html_filetypes := ["html"; "vue"]; css_filetypes := [] |} in
  let g2 := {| html_filetypes := ["vue"; "vue"; "php"];
               css_filetypes := ["css"] |} in
  fst (onCompletion (MiniEmmet.request 0 1) (set_globalSettings g1 s))
    = fst (onCompletion (MiniEmmet.request 0 1) (set_globalSettings g2 s)).
Proof.
  intros doc s g1 g2.
  apply (@routing_depends_on_membership_only MiniEmmet.engine
           (MiniEmmet.request 0 1) s doc g1 g2 eq_refl).
  - simpl. split; intros _; [left; reflexivity | right; left; reflexivity].
  - simpl. split; [intros [] | intros [Heq|[]]; discriminate Heq].
Defined.

(** X8.  A completion request reads the requested document and the
    global settings and nothing else: on two servers that agree on these,
    the same request gets the same reply, writes the same console lines
    and makes the same engine calls.  The capability flags, the
    per-document settings cache and everything earlier requests logged or
    called have no influence. *)
Theorem completion_reads_document_and_settings_only `{Emmet.Engine}
    (p : LSP.TextDocumentPositionParams) (s1 s2 : State) :
  documents s1 !! LSP.textDocument p = documents s2 !! LSP.textDocument p ->
  globalSettings s1 = globalSettings s2 ->
  exists items lines calls,
    onCompletion p s1 = (Returned items, after lines calls s1) /\
    onCompletion p s2 = (Returned items, after lines calls s2).
Proof.
  intros Hdocs Hsettings.
  destruct (documents s1 !! LSP.textDocument p) as [doc|] eqn:Hdoc.
  - rewrite (onCompletion_run p s1 doc Hdoc).
    rewrite (onCompletion_run p s2 doc (eq_sym Hdocs)).
    rewrite Hsettings. eauto.
  - rewrite (onCompletion_missing p s1 Hdoc).
    rewrite (onCompletion_missing p s2 (eq_sym Hdocs)). eauto.
Qed.

Lemma completion_reads_document_and_settings_only_witness :
  let doc := MiniEmmet.document "html" "div" in
  let s := MiniEmmet.server_with false defaultSettings doc in
  let p := MiniEmmet.request 0 3 in
  let busy :=
    set_capabilities true true true
      (snd (getDocumentSettings "file:///demo"
              (set_capabilities true false false (snd (onCompletion p s))))) in
  exists items lines calls,
    onCompletion p s = (Returned items, after lines calls s) /\
    onCompletion p busy = (Returned items, after lines calls busy).
Proof.
  intros doc s p busy.
  apply (@completion_reads_document_and_settings_only MiniEmmet.engine
           p s busy); reflexivity.
Defined.

(** ** [getDocumentSettings] and [onDidClose] *)

Lemma getDocumentSettings_cases `{Emmet.Engine} (resource : string)
    (s : State) :
  let pending :=
    GetConfiguration {| LSP.scopeUri := resource;
                        LSP.section := "languageServerExample" |} in
  getDocumentSettings resource s =
  if hasConfigurationCapability s then
    match documentSettings s !! resource with
    | Some entry => (Returned entry, s)
    | None => (Returned pending,
               set_documentSettings
                 (<[resource := pending]> (documentSettings s)) s)
    end
  else (Returned (PromiseResolve (globalSettings s)), s).
Proof.
  unfold getDocumentSettings, bind, gets, modify, ret.
  destruct (hasConfigurationCapability s); simpl; [|reflexivity].
  destruct (documentSettings s !! resource); reflexivity.
Qed.

(** X10.  [getDocumentSettings] never throws, never replaces or removes
    an entry the cache already holds and never touches the entry of
    another document.  When the client supports configuration requests,
    the thenable it returns is the one the cache holds for the document
    afterwards; when it does not, the global settings are returned,
    resolved, and the state is unchanged even if the cache holds an entry.
    In every case the global settings, the documents, the console and the
    engine are left alone. *)
Theorem getDocumentSettings_cache_coherence `{Emmet.Engine}
    (resource : string) (s : State) :
  exists result,
    fst (getDocumentSettings resource s) = Returned result /\
    let s' := snd (getDocumentSettings resource s) in
    (forall entry,
       documentSettings s !! resource = Some entry ->
       documentSettings s' !! resource = Some entry) /\
    (forall other,
       other <> resource ->
       documentSettings s' !! other = documentSettings s !! other) /\
    (hasConfigurationCapability s = true ->
     documentSettings s' !! resource = Some result) /\
    (hasConfigurationCapability s = false ->
     result = PromiseResolve (globalSettings s) /\ s' = s) /\
    globalSettings s' = globalSettings s /\
    documents s' = documents s /\
    console s' = console s /\
    emmet_calls s' = emmet_calls s.
Proof.
  rewrite (getDocumentSettings_cases resource s).
  destruct (hasConfigurationCapability s) eqn:Hcap.
  - destruct (documentSettings s !! resource) as [entry|] eqn:Hentry.
    + exists entry. simpl. split; [reflexivity|].
      split; [intros e [= <-]; exact Hentry|].
      split; [auto|]. split; [intros _; exact Hentry|].
      split; [discriminate|]. auto.
    + eexists. split; [reflexivity|]. simpl.
      split; [discriminate|].
      split; [intros other Hne; now apply lookup_insert_ne|].
      split; [intros _; apply lookup_insert_eq|].
      split; [discriminate|]. auto.
  - eexists. split; [reflexivity|]. simpl.
    split; [auto|]. split; [auto|]. split; [discriminate|]. auto.
Qed.

Lemma getDocumentSettings_cache_coherence_witness :
  let doc := MiniEmmet.document "html" "div" in
  let s := MiniEmmet.server_with true defaultSettings doc in
  let s_off := MiniEmmet.server_with false defaultSettings doc in
  (exists result,
     documentSettings (snd (getDocumentSettings "file:///demo" s))
       !! "file:///demo" = Some result) /\
  snd (getDocumentSettings "file:///demo" s_off) = s_off.
Proof.
  intros doc s s_off. split.
  - destruct (@getDocumentSettings_cache_coherence MiniEmmet.engine
                "file:///demo" s) as (result & _ & _ & _ & Hcached & _).
    exists result. apply Hcached. reflexivity.
  - destruct (@getDocumentSettings_cache_coherence MiniEmmet.engine
                "file:///demo" s_off) as (result & _ & _ & _ & _ & Hoff & _).
    apply Hoff. reflexivity.
Defined.

(** X11.  Closing a document undoes the lazy creation of its entry: on a
    server with no entry for the document, asking for its settings and
    then closing it leaves the server as it was.  And a close makes the
    document new again: whatever the cache held for it, the next
    [getDocumentSettings] on a client with configuration support issues a
    fresh configuration request and stores it. *)
Theorem close_and_getDocumentSettings `{Emmet.Engine}
    (document : LSP.TextDocument) (s : State) :
  let resource := LSP.uri document in
  let pending :=
    GetConfiguration {| LSP.scopeUri := resource;
                        LSP.section := "languageServerExample" |} in
  (documentSettings s !! resource = None ->
   snd (onDidClose document (snd (getDocumentSettings resource s))) = s) /\
  (hasConfigurationCapability s = true ->
   let closed := snd (onDidClose document s) in
   fst (getDocumentSettings resource closed) = Returned pending /\
   documentSettings (snd (getDocumentSettings resource closed)) !! resource
   = Some pending).
Proof.
  intros resource pending. split.
  - intros Hnone. rewrite (getDocumentSettings_cases resource s).
    destruct (hasConfigurationCapability s); rewrite ?Hnone;
      unfold onDidClose, modify; simpl;
      apply state_ext; simpl; try reflexivity.
    + fold resource. rewrite delete_insert_eq. now apply delete_id.
    + now apply delete_id.
  - intros Hcap closed.
    rewrite (getDocumentSettings_cases resource closed).
    subst closed. unfold onDidClose, modify. simpl. rewrite Hcap.
    fold resource. rewrite lookup_delete_eq. simpl.
    split; [reflexivity | apply lookup_insert_eq].
Qed.

Lemma close_and_getDocumentSettings_witness :
  let doc := MiniEmmet.document "html" "div" in
  let s := MiniEmmet.server_with true defaultSettings doc in
  snd (onDidClose doc (snd (getDocumentSettings "file:///demo" s))) = s /\
  fst (getDocumentSettings "file:///demo" (snd (onDidClose doc s)))
    = Returned (GetConfiguration
                  {| LSP.scopeUri := "file:///demo";
                     LSP.section := "languageServerExample" |}).
Proof.
  intros doc s.
  destruct (@close_and_getDocumentSettings MiniEmmet.engine doc s)
    as [Hundo Hfresh].
  split.
  - apply Hundo. reflexivity.
  - apply Hfresh. reflexivity.
Defined.

(** X12.  Close notifications commute and repeat harmlessly: closing a
    document twice is closing it once, closing two documents in either
    order gives the same state, and a close changes nothing but the cache
    entry of the closed document. *)
Theorem close_is_idempotent_and_commutes `{Emmet.Engine}
    (d1 d2 : LSP.TextDocument) (s : State) :
  snd (onDidClose d1 (snd (onDidClose d1 s))) = snd (onDidClose d1 s) /\
  snd (onDidClose d2 (snd (onDidClose d1 s)))
    = snd (onDidClose d1 (snd (onDidClose d2 s))) /\
  fst (onDidClose d1 s) = Returned tt /\
  snd (onDidClose d1 s)
    = set_documentSettings (delete (LSP.uri d1) (documentSettings s)) s /\
  (forall other,
     other <> LSP.uri d1 ->
     documentSettings (snd (onDidClose d1 s)) !! other
     = documentSettings s !! other).
Proof.
  unfold onDidClose, modify. simpl.
  split; [|split; [|split; [|split]]]; try reflexivity.
  - apply state_ext; simpl; try reflexivity.
    apply delete_id, lookup_delete_eq.
  - apply state_ext; simpl; try reflexivity. apply delete_delete.
  - intros other Hne. apply lookup_delete_ne. congruence.
Qed.

Lemma close_is_idempotent_and_commutes_witness :
  let doc := MiniEmmet.document "html" "div" in
  let s := snd (getDocumentSettings "file:///other"
                  (MiniEmmet.server_with true defaultSettings doc)) in
  is_Some (documentSettings (snd (onDidClose doc s)) !! "file:///other").
Proof.
  intros doc s.
  destruct (@close_is_idempotent_and_commutes MiniEmmet.engine doc doc s)
    as (_ & _ & _ & _ & Hother).
  rewrite (Hother "file:///other"); [|discriminate].
  vm_compute. eauto.
Defined.

(** ** Initialization *)

(** X13.  Initialization followed by the initialized notification
    subscribes the server to configuration changes exactly when the client
    declares a truthy [workspace.configuration], and to workspace folder
    changes exactly when it declares a truthy [workspace.workspaceFolders];
    the latter is also exactly when the initialization result advertises
    workspace folder support.  The capability flags are set from the
    client's declaration, and the settings, the cache, the documents, the
    console and the engine are left alone. *)
Theorem initialization_subscribes `{Emmet.Engine}
    (params : LSP.InitializeParams) (s : State) :
  let caps := LSP.params_capabilities params in
  let s' := run [Initialize params; Initialized] s in
  let declares (get : LSP.WorkspaceClientCapabilities -> option bool) :=
    exists w, LSP.client_workspace caps = Some w /\ get w = Some true in
  subscriptions s' = (subscriptions s ++ subscriptions_for caps)%list /\
  (In ConfigurationChanges (subscriptions_for caps)
   <-> declares LSP.configuration) /\
  (In WorkspaceFolderChanges (subscriptions_for caps)
   <-> declares LSP.workspaceFolders) /\
  (exists result,
     fst (onInitialize params s) = Returned result /\
     LSP.textDocumentSync (LSP.capabilities result) = LSP.SyncIncremental /\
     (LSP.workspace (LSP.capabilities result)
        = Some {| LSP.supported := true |}
      <-> declares LSP.workspaceFolders) /\
     (LSP.workspace (LSP.capabilities result) = None
      <-> ~ declares LSP.workspaceFolders)) /\
  (hasConfigurationCapability s' = true <-> declares LSP.configuration) /\
  (hasWorkspaceFolderCapability s' = true
   <-> declares LSP.workspaceFolders) /\
  globalSettings s' = globalSettings s /\
  documentSettings s' = documentSettings s /\
  documents s' = documents s /\
  console s' = console s /\
  emmet_calls s' = emmet_calls s.
Proof.
  intros caps s' declares.
  assert (Hflag : forall get,
            (match LSP.client_workspace caps with
             | Some w => truthy_flag (get w)
             | None => false
             end = true) <-> declares get).
  { intros get. unfold declares.
    destruct (LSP.client_workspace caps) as [w|].
    - destruct (get w) as [[]|] eqn:Hg; simpl.
      + split; [eauto | reflexivity].
      + split; [discriminate | intros (w' & [= <-] & Hw); congruence].
      + split; [discriminate | intros (w' & [= <-] & Hw); congruence].
    - split; [discriminate | intros (w' & Hw & _); discriminate]. }
  pose proof (Hflag LSP.configuration) as Hconf.
  pose proof (Hflag LSP.workspaceFolders) as Hfold.
  fold (supports_configuration caps) in Hconf.
  fold (supports_workspaceFolders caps) in Hfold.
  subst s'. unfold subscriptions_for.
  unfold run, step, onInitialize, onInitialized, bind, gets, modify, ret.
  simpl. fold caps.
  destruct (supports_configuration caps);
    destruct (supports_workspaceFolders caps); simpl;
    rewrite <- ?app_assoc, ?app_nil_r; simpl;
    (split; [reflexivity|]);
    (split; [rewrite <- Hconf; intuition discriminate|]);
    (split; [rewrite <- Hfold; intuition discriminate|]);
    (split; [eexists; split; [reflexivity|]; simpl;
             split; [reflexivity|];
             rewrite <- Hfold; intuition discriminate|]);
    (split; [rewrite <- Hconf; intuition discriminate|]);
    (split; [rewrite <- Hfold; intuition discriminate|]);
    auto.
Qed.

(** ** The running server *)

Lemma run_app `{Emmet.Engine} (evs1 evs2 : list Event) (s : State) :
  run (evs1 ++ evs2) s = run evs2 (run evs1 s).
Proof. unfold run. apply fold_left_app. Qed.

Lemma step_globalSettings `{Emmet.Engine} (ev : Event) (s : State) :
  globalSettings (step ev s) =
  match ev with
  | DidChangeConfiguration settings => settings
  | _ => globalSettings s
  end.
Proof.
  destruct ev; simpl; try reflexivity.
  - unfold onInitialized, bind, gets, modify, ret.
    destruct (hasConfigurationCapability s); simpl;
      destruct (hasWorkspaceFolderCapability s); reflexivity.
  - destruct (documents s !! LSP.textDocument params) as [doc|] eqn:Hdoc.
    + now rewrite (onCompletion_run params s doc Hdoc).
    + now rewrite (onCompletion_missing params s Hdoc).
  - destruct (workspaceFoldersChanged_run s) as (lines & -> & _).
    reflexivity.
Qed.

Lemma run_globalSettings_unchanged `{Emmet.Engine} (evs : list Event)
    (s : State) :
  no_configuration_change evs ->
  globalSettings (run evs s) = globalSettings s.
Proof.
  revert s. induction evs as [|ev evs IH]; intros s Hno; [reflexivity|].
  simpl. rewrite IH.
  - rewrite step_globalSettings. destruct ev; try reflexivity.
    exfalso. apply (Hno settings). now left.
  - intros g Hin. apply (Hno g). now right.
Qed.

(** X14.  Only a completion request calls the engine.  The console is
    written by completion requests and by the workspace folder listener
    alone: a workspace folder change appends the listener's fixed line
    once for each listener registered, hence nothing when none is, and
    initialization, configuration changes, closes and document updates
    write nothing.  No event removes or rewrites an earlier console line
    or engine call. *)
Theorem console_and_engine_are_append_only `{Emmet.Engine}
    (ev : Event) (s : State) :
  exists lines calls,
    console (step ev s) = (console s ++ lines)%list /\
    emmet_calls (step ev s) = (emmet_calls s ++ calls)%list /\
    match ev with
    | Completion _ =>
        (length calls <= 8)%nat /\ forall l, In l lines -> is_error_line l
    | DidChangeWorkspaceFolders =>
        calls = [] /\
        (forall l, In l lines ->
                   l = "Workspace folder change event received.") /\
        length lines
          = length (List.filter
                      (fun sub => match sub with
                                  | WorkspaceFolderChanges => true
                                  | ConfigurationChanges => false
                                  end) (subscriptions s))
    | _ => lines = [] /\ calls = []
    end.
Proof.
  destruct ev; simpl;
    try (exists [], []; rewrite !app_nil_r; repeat split; reflexivity).
  - exists [], []. rewrite !app_nil_r.
    unfold onInitialized, bind, gets, modify, ret.
    destruct (hasConfigurationCapability s); simpl;
      destruct (hasWorkspaceFolderCapability s); repeat split; reflexivity.
  - destruct (documents s !! LSP.textDocument params) as [doc|] eqn:Hdoc.
    + rewrite (onCompletion_run params s doc Hdoc).
      pose proof (routed_run_shape (html_filetypes (globalSettings s)) doc
                    params markup_opts) as (Hc1 & _ & He1).
      pose proof (routed_run_shape (css_filetypes (globalSettings s)) doc
                    params stylesheet_opts) as (Hc2 & _ & He2).
      eexists _, _. simpl. split; [reflexivity|]. split; [reflexivity|].
      rewrite length_app. split; [lia|].
      intros l Hin. apply in_app_or in Hin. destruct Hin; auto.
    + rewrite (onCompletion_missing params s Hdoc).
      eexists _, _. simpl. split; [reflexivity|]. split; [reflexivity|].
      split; [simpl; lia|].
      intros l [<-|[]]. now exists "failed to find document".
  - destruct (workspaceFoldersChanged_run s) as (lines & -> & Hlines & Hlen).
    exists lines, []. simpl. rewrite app_nil_r. auto.
Qed.

Example workspace_folder_change_is_logged_when_subscribed :
  let params :=
    {| LSP.params_capabilities :=
         {| LSP.client_workspace :=
              Some {| LSP.configuration := None;
                      LSP.workspaceFolders := Some true |};
            LSP.client_textDocument := None |} |} in
  console (@run MiniEmmet.engine
             [Initialize params; Initialized; DidChangeWorkspaceFolders]
             initial_state)
    = ["Workspace folder change event received."] /\
  console (@run MiniEmmet.engine
             [Initialized; DidChangeWorkspaceFolders] initial_state) = [].
Proof. split; reflexivity. Qed.

(** X15.  The global settings are those of the last configuration change:
    after a change, no later event other than another change alters them,
    and until the first change they are the defaults. *)
Theorem last_configuration_change_wins `{Emmet.Engine}
    (earlier later : list Event) (settings : Settings) (s : State) :
  no_configuration_change later ->
  globalSettings
    (run (earlier ++ DidChangeConfiguration settings :: later) s) = settings /\
  globalSettings (run later initial_state) = defaultSettings.
Proof.
  intros Hno. split.
  - rewrite run_app. simpl.
    now rewrite (run_globalSettings_unchanged later _ Hno).
  - now rewrite (run_globalSettings_unchanged later _ Hno).
Qed.

Lemma last_configuration_change_wins_witness :
  let vue := {| html_filetypes := ["vue"]; css_filetypes := ["vue"] |} in
  let doc := MiniEmmet.document "vue" "p" in
  globalSettings
    (@run MiniEmmet.engine
       ([DidChangeConfiguration defaultSettings]
        ++ DidChangeConfiguration vue
           :: [DocumentsSync {[ "file:///demo" := doc ]};
               Completion (MiniEmmet.request 0 1); DidClose doc])
       initial_state) = vue.
Proof.
  intros vue doc.
  apply (@last_configuration_change_wins MiniEmmet.engine).
  intros g Hin. simpl in Hin.
  destruct Hin as [Heq|[Heq|[Heq|[]]]]; discriminate Heq.
Defined.

(** X16.  On a server that has received no configuration change, a
    request for a held document whose language id is neither [html] nor
    [css] is answered with the empty list, without any engine call or
    console line: the state is left as it was. *)
Theorem default_routing_until_configured `{Emmet.Engine}
    (evs : list Event) (p : LSP.TextDocumentPositionParams)
    (doc : LSP.TextDocument) :
  no_configuration_change evs ->
  let s := run evs initial_state in
  documents s !! LSP.textDocument p = Some doc ->
  LSP.languageId doc <> "html" ->
  LSP.languageId doc <> "css" ->
  onCompletion p s = (Returned [], s).
Proof.
  intros Hno s Hdoc Hhtml Hcss.
  assert (Hg : globalSettings s = defaultSettings).
  { subst s. now rewrite (run_globalSettings_unchanged evs _ Hno). }
  rewrite (onCompletion_run p s doc Hdoc). rewrite Hg.
  rewrite !routed_run_skipped.
  - simpl. now rewrite after_nil.
  - simpl. intros [Heq|[]]. congruence.
  - simpl. intros [Heq|[]]. congruence.
Qed.

Lemma default_routing_until_configured_witness :
  let doc := MiniEmmet.document "vue" "p" in
  let evs := [DocumentsSync {[ "file:///demo" := doc ]}] in
  onCompletion (MiniEmmet.request 0 1) (@run MiniEmmet.engine evs initial_state)
  = (Returned [], @run MiniEmmet.engine evs initial_state).
Proof.
  intros doc evs.
  apply (@default_routing_until_configured MiniEmmet.engine evs
           (MiniEmmet.request 0 1) doc).
  - intros g [Heq|[]]. discriminate Heq.
  - reflexivity.
  - discriminate.
  - discriminate.
Defined.

(** X17.  Whatever events a server has handled since it was loaded, its
    per-document settings cache is empty, so every close notification
    finds no entry and leaves the server exactly as it was. *)
Theorem cache_stays_empty `{Emmet.Engine} (evs : list Event)
    (document : LSP.TextDocument) :
  let s := run evs initial_state in
  documentSettings s = ∅ /\
  onDidClose document s = (Returned tt, s).
Proof.
  intros s.
  assert (Hempty : documentSettings s = ∅).
  { apply reachable_documentSettings_empty, run_reachable. constructor. }
  split; [exact Hempty|].
  unfold onDidClose, modify. f_equal.
  apply state_ext; simpl; try reflexivity.
  rewrite Hempty. apply delete_empty.
Qed.
